(** * The conversation client of [app/chat-bot/frontend/ChatBotUI.tsx]

    A shallow embedding of the chat screen's state and of its handlers
    ([fetchConversations], [loadConversation], [handleNewChat],
    [handleDeleteConversation], [handleSendMessage]).

    The component is a React function component: its state lives in six
    [useState] cells, and every handler is a closure over the values those
    cells had at the render that created it.  An asynchronous handler runs
    in pieces: a synchronous prefix up to its first [await] (or up to the
    promise chain it installs), and one continuation per awaited network
    call.  Each piece is a function on the state; the values read through
    the closure come from a [Render], the values written go through the
    state setters and therefore apply to the state current at that time.

    Console output is no part of the state and is left out.  The effect run
    when the session changes ([testBackendConnection] and the first call of
    [fetchConversations]) is outside this development, and so is the
    rendering. *)

From Stdlib Require Import ZArith NArith List Bool String Ascii Lia DecimalString.
Import ListNotations.
Local Open Scope Z_scope.

(** ** JavaScript strings *)

(** A JS string is a sequence of UTF-16 code units. *)
Definition JsString := list N.

(** An ASCII literal of the source. *)
Definition str (s : string) : JsString :=
  map N_of_ascii (list_ascii_of_string s).

(** [Number.prototype.toString] and the number-to-string conversion of [+]
    and of template literals, on integers. *)
Definition toString (n : Z) : JsString :=
  str (NilZero.string_of_int (Z.to_int n)).

(** [a === b] on strings. *)
Fixpoint strict_eq (a b : JsString) : bool :=
  match a, b with
  | [], [] => true
  | c :: a', d :: b' => N.eqb c d && strict_eq a' b'
  | _, _ => false
  end.

(** [s.startsWith(p)]. *)
Fixpoint startsWith (s p : JsString) : bool :=
  match p, s with
  | [], _ => true
  | c :: p', d :: s' => N.eqb c d && startsWith s' p'
  | _ :: _, [] => false
  end.

(** [s.includes(p)]. *)
Fixpoint includes (s p : JsString) : bool :=
  startsWith s p ||
  match s with
  | [] => false
  | _ :: s' => includes s' p
  end.

(** [s.replace(pat, rep)] with a string pattern: the first occurrence only. *)
Fixpoint replace (s pat rep : JsString) : JsString :=
  if startsWith s pat then rep ++ skipn (List.length pat) s
  else match s with
       | [] => []
       | c :: s' => c :: replace s' pat rep
       end.

(** The code units [String.prototype.trim] strips: ECMAScript's WhiteSpace
    and LineTerminator productions. *)
Definition isWhiteSpace (c : N) : bool :=
  let c := Z.of_N c in
  ((9 <=? c) && (c <=? 13)) || (c =? 32) || (c =? 160) || (c =? 5760)
  || ((8192 <=? c) && (c <=? 8202)) || (c =? 8232) || (c =? 8233)
  || (c =? 8239) || (c =? 8287) || (c =? 12288) || (c =? 65279).

Fixpoint trimStart (s : JsString) : JsString :=
  match s with
  | c :: s' => if isWhiteSpace c then trimStart s' else s
  | [] => []
  end.

Definition trimEnd (s : JsString) : JsString := rev (trimStart (rev s)).

Definition trim (s : JsString) : JsString := trimEnd (trimStart s).

(** Truthiness of a value of type [string | null | undefined]: absent and
    empty are falsy. *)
Definition truthy (v : option JsString) : bool :=
  match v with
  | Some (_ :: _) => true
  | _ => false
  end.

(** ** Data model *)

Inductive Sender := user | bot.

(** A [Date]: [new Date()] at a clock reading, or [new Date(s)] from a
    string of the server. *)
Inductive JsDate :=
| DateAt (ms : Z)
| DateOf (s : JsString).

(** [interface Message].  The interface declares [id: string]; the bot
    message takes its [id] from the response without a check, so the field
    holds [undefined] ([None]) at run time when the response has none. *)
Module Message.
Record t := mk {
  id : option JsString;
  text : JsString;
  sender : Sender;
  timestamp : JsDate
}.
End Message.

(** [interface Conversation]. *)
Module Conversation.
Record t := mk {
  id : JsString;
  title : JsString
}.
End Conversation.

(** The session of [useAuth()]: only the bearer token is used in requests. *)
Record Session := { access_token : JsString }.

(** The six [useState] cells of [ChatBotUI]. *)
Record State := mkState {
  messages : list Message.t;
  inputText : JsString;
  isLoading : bool;
  isLoadingConversations : bool;
  conversations : list Conversation.t;
  currentConversationId : option JsString
}.

(** What a handler closes over: the session and the state of the render
    that created the handler. *)
Record Render := {
  session : option Session;
  rendered : State
}.

(** The state setters; [setMessages] takes the updater function, a direct
    [setMessages(v)] is [setMessages (fun _ => v)]. *)
Definition setMessages (f : list Message.t -> list Message.t) (st : State) : State :=
  mkState (f (messages st)) (inputText st) (isLoading st)
          (isLoadingConversations st) (conversations st) (currentConversationId st).

Definition setInputText (v : JsString) (st : State) : State :=
  mkState (messages st) v (isLoading st)
          (isLoadingConversations st) (conversations st) (currentConversationId st).

Definition setIsLoading (v : bool) (st : State) : State :=
  mkState (messages st) (inputText st) v
          (isLoadingConversations st) (conversations st) (currentConversationId st).

Definition setIsLoadingConversations (v : bool) (st : State) : State :=
  mkState (messages st) (inputText st) (isLoading st)
          v (conversations st) (currentConversationId st).

Definition setConversations (v : list Conversation.t) (st : State) : State :=
  mkState (messages st) (inputText st) (isLoading st)
          (isLoadingConversations st) v (currentConversationId st).

Definition setCurrentConversationId (v : option JsString) (st : State) : State :=
  mkState (messages st) (inputText st) (isLoading st)
          (isLoadingConversations st) (conversations st) v.

(** ** Network *)

Inductive Method := GET | POST | DELETE.

(** The body of [POST /chat]: [conversation_id] is left out of the object
    when no conversation is current. *)
Module RequestBody.
Record t := mk {
  message : JsString;
  conversation_id : option JsString
}.
End RequestBody.

(** The [options] argument of [fetch]. *)
Record Options := {
  method : Method;
  headers : list (JsString * JsString);
  body : option RequestBody.t
}.

(** The two ways the component issues a request: the platform [fetch], or
    the helper [fetchWithTimeout], which races [fetch] against a timer. *)
Inductive Call :=
| fetch (url : JsString) (options : Options)
| fetchWithTimeout (url : JsString) (options : Options) (timeout : Z).

(** Thrown values. *)
Inductive JsError :=
| Error (msg : JsString)
| TypeError
| SyntaxError.

(** A [Response]: [status], the body as [text()] gives it, and the body as
    [json()] decodes it ([None] when [json()] rejects). *)
Record Response (B : Type) := {
  status : Z;
  text : JsString;
  json : option B
}.
Arguments status {B} _.
Arguments text {B} _.
Arguments json {B} _.

(** [response.ok]. *)
Definition ok {B} (r : Response B) : bool :=
  (200 <=? status r) && (status r <=? 299).

(** A settled promise. *)
Inductive Settled (A : Type) :=
| Fulfilled (a : A)
| Rejected (e : JsError).
Arguments Fulfilled {A} _.
Arguments Rejected {A} _.

(** What the network does with one request: how the platform [fetch]
    settles, and after how many milliseconds. *)
Record Reply (B : Type) := {
  latency : Z;
  settles : Settled (Response B)
}.
Arguments latency {B} _.
Arguments settles {B} _.

Definition FETCH_TIMEOUT : Z := 30000.

(** Awaiting a call.  A bare [fetch] settles as the network settles it.
    [fetchWithTimeout] is [Promise.race] of the fetch and of a timer that
    rejects after [timeout] ms: the fetch wins when it settles first. *)
Definition race {B} (timeout : Z) (reply : Reply B) : Settled (Response B) :=
  if latency reply <? timeout then settles reply
  else Rejected (Error (str "Network request timed out")).

Definition await {B} (c : Call) (reply : Reply B) : Settled (Response B) :=
  match c with
  | fetch _ _ => settles reply
  | fetchWithTimeout _ _ timeout => race timeout reply
  end.

(** ** Control flow *)

(** A [try] block run to its end: it completed, or it threw; the state
    carries the setter calls made up to that point. *)
Inductive Try :=
| Normal (st : State)
| Threw (e : JsError) (st : State).

Definition catch (t : Try) (handler : JsError -> State -> Try) : Try :=
  match t with
  | Normal st => Normal st
  | Threw e st => handler e st
  end.

Definition finally (t : Try) (f : State -> State) : Try :=
  match t with
  | Normal st => Normal (f st)
  | Threw e st => Threw e (f st)
  end.

Definition try_state (t : Try) : State :=
  match t with
  | Normal st | Threw _ st => st
  end.

(** The result of one piece of a handler: it is done, an exception escaped
    it, or a request is in flight whose settlement resumes the component. *)
Inductive Step :=
| Done (st : State)
| Failed (e : JsError) (st : State)
| Pending (st : State) (call : Call).

Definition state_of (s : Step) : State :=
  match s with
  | Done st | Failed _ st | Pending st _ => st
  end.

Definition calls_of (s : Step) : list Call :=
  match s with
  | Pending _ c => [c]
  | _ => []
  end.

Definition settle (t : Try) : Step :=
  match t with
  | Normal st => Done st
  | Threw e st => Failed e st
  end.

Definition with_state (f : State -> State) (s : Step) : Step :=
  match s with
  | Done st => Done (f st)
  | Failed e st => Failed e (f st)
  | Pending st c => Pending (f st) c
  end.

(** ** Response bodies

    The decoded JSON of each endpoint, typed as the code reads it.  A field
    the code tests before use is optional ([None] for an absent or null
    field); a field it uses unchecked has the declared type. *)

(** One element of [data.messages] of [GET /conversations/{id}/messages]. *)
Module MessageRow.
Record t := mk {
  id : JsString;
  content : JsString;
  role : JsString;
  created_at : JsString
}.
End MessageRow.

(** The body of [GET /conversations/{id}/messages]. *)
Module ConversationData.
Record t := mk {
  messages : option (list MessageRow.t)
}.
End ConversationData.

(** [data.response] of [POST /chat]: the assistant's message. *)
Module AssistantMessage.
Record t := mk {
  id : option JsString;
  content : option JsString;
  created_at : option JsString
}.
End AssistantMessage.

(** The body of [POST /chat]; its [message] field (the stored user message)
    is never read. *)
Module ChatResponse.
Record t := mk {
  conversation_id : option JsString;
  response : option AssistantMessage.t
}.
End ChatResponse.

Definition isSome {A} (o : option A) : bool :=
  match o with
  | Some _ => true
  | None => false
  end.

Definition bind {A B} (o : option A) (f : A -> option B) : option B :=
  match o with
  | Some a => f a
  | None => None
  end.

(** The value of a string expression already tested truthy. *)
Definition the (o : option JsString) : JsString :=
  match o with
  | Some s => s
  | None => []
  end.

(** [a === b] on values of type [string | null]. *)
Definition strict_eq_opt (a b : option JsString) : bool :=
  match a, b with
  | Some a, Some b => strict_eq a b
  | None, None => true
  | _, _ => false
  end.

(** ** Requests that do not settle

    A [Reply] always settles.  What the platform does with a request in
    the long run has two more cases: the [fetch] promise never settles, or
    it settles and the body of the response is never delivered, so that
    [text()] and [json()] never settle.  [fetchWithTimeout] puts a timer on
    the first only: the [Promise.race] is over once the response is
    there. *)
Inductive Fate (B : Type) :=
| Settles (reply : Reply B)
| Stalls (reply : Reply B)
| Hangs.
Arguments Settles {B} _.
Arguments Stalls {B} _.
Arguments Hangs {B}.

(** ** Sample data *)

Definition ios : JsString := str "ios".

Definition mobile_url : option JsString :=
  Some (str "http://172.20.10.9:8000/api/v1").

Definition token : Session := {| access_token := str "token" |}.

Definition c1 : JsString := str "c1".

Definition first_chat : Conversation.t := Conversation.mk c1 (str "First chat").

(** A new chat with [hello] typed in. *)
Definition hello_new : State :=
  mkState [] (str "hello") false false [] None.

(** Conversation [c1] open, with [hello] typed in. *)
Definition hello_in_c1 : State :=
  mkState [] (str "hello") false false [first_chat] (Some c1).

(** A new chat with two spaces and a tab typed in. *)
Definition spaces_new : State :=
  mkState [] [32%N; 32%N; 9%N] false false [first_chat] None.

(** A reply that arrives after [ms] milliseconds with status [code] and
    the decoded body [data]. *)
Definition replied {B} (ms code : Z) (data : option B) : Reply B :=
  {| latency := ms;
     settles := Fulfilled {| status := code; text := []; json := data |} |}.

(** The body of the scenario of the specification. *)
Definition hi_there : option ChatResponse.t :=
  Some (ChatResponse.mk
          (Some c1)
          (Some (AssistantMessage.mk
                   (Some (str "m1"))
                   (Some (str "hi there"))
                   (Some (str "2024-01-01T00:00:00Z"))))).

(** The same body without the [id] of the bot response. *)
Definition hi_there_without_id : option ChatResponse.t :=
  Some (ChatResponse.mk
          (Some c1)
          (Some (AssistantMessage.mk None (Some (str "hi there")) None))).

Definition stored_hello : MessageRow.t :=
  MessageRow.mk (str "u1") (str "hello") (str "user")
                (str "2024-01-01T00:00:00Z").

(** Conversation [c1] open with one earlier message on display. *)
Definition chatting : State :=
  mkState [Message.mk (Some (str "m0")) (str "earlier") bot (DateAt 1)]
          [] false false [first_chat] (Some c1).

(** A request the platform rejects after [ms] milliseconds. *)
Definition unreachable {B} (ms : Z) : Reply B :=
  {| latency := ms; settles := Rejected TypeError |}.

(** One earlier message on display in [c1], and [hello] typed in. *)
Definition chatting_hello : State :=
  mkState [Message.mk (Some (str "m0")) (str "earlier") bot (DateAt 1)]
          (str "hello") false false [first_chat] (Some c1).

(** ** The component *)

Section ChatBotUI.

(** [Platform.OS] and the two environment variables read at module load. *)
Variable Platform_OS : JsString.
Variable EXPO_PUBLIC_API_BASE_URL_WEB : option JsString.
Variable EXPO_PUBLIC_API_BASE_URL_MOBILE : option JsString.

(** [v + '/chat'] on an environment variable: an unset one prints as
    [undefined]. *)
Definition plus_chat (v : option JsString) : JsString :=
  match v with
  | Some s => s ++ str "/chat"
  | None => str "undefined/chat"
  end.

(** [a || b] on strings. *)
Definition or_else (a b : JsString) : JsString :=
  if truthy (Some a) then a else b.

Definition getApiEndpoint : JsString :=
  if strict_eq Platform_OS (str "web")
  then or_else (plus_chat EXPO_PUBLIC_API_BASE_URL_WEB)
               (str "http://localhost:8000/api/v1/chat")
  else or_else (plus_chat EXPO_PUBLIC_API_BASE_URL_MOBILE)
               (str "http://172.20.10.9:8000/api/v1/chat").

Definition API_ENDPOINT : JsString := getApiEndpoint.
Definition API_BASE : JsString := replace API_ENDPOINT (str "/chat") [].

Definition authorization (s : Session) : JsString * JsString :=
  (str "Authorization", str "Bearer " ++ access_token s).

Definition content_type : JsString * JsString :=
  (str "Content-Type", str "application/json").

(** The [Error] thrown on a response that is not [ok]. *)
Definition server_error {B} (response : Response B) : JsError :=
  Error (str "Server error: " ++ toString (status response)
           ++ str " - " ++ text response).

(** [setMessages(prevMessages => [...prevMessages, m])]. *)
Definition append (m : Message.t) (st : State) : State :=
  setMessages (fun prevMessages => prevMessages ++ [m]) st.

(** *** [fetchConversations] *)

Definition fetchConversations_call (s : Session) : Call :=
  fetchWithTimeout (API_BASE ++ str "/conversations")
    {| method := GET;
       headers := [authorization s; content_type];
       body := None |}
    FETCH_TIMEOUT.

(** Up to the [await]. *)
Definition fetchConversations (r : Render) (st : State) : Step :=
  match session r with
  | None => Done st
  | Some s =>
      let st := setIsLoadingConversations true st in
      Pending st (fetchConversations_call s)
  end.

(** The [try] block from the settlement of the request on. *)
Definition fetchConversations_try (reply : Reply (list Conversation.t))
           (st : State) : Try :=
  match race FETCH_TIMEOUT reply with
  | Rejected e => Threw e st
  | Fulfilled response =>
      if negb (ok response) then Threw (server_error response) st
      else
        match json response with
        | None => Threw SyntaxError st
        | Some data =>
            Normal (setConversations
                      (map (fun conv =>
                              Conversation.mk (Conversation.id conv)
                                              (Conversation.title conv))
                           data)
                      st)
        end
  end.

Definition diagnostic (now : Z) : Message.t :=
  Message.mk
    (Some (str "diagnostic-" ++ toString now))
    ([55357%N; 56615%N] ++ str " Diagnostic: Failed to load conversations on "
       ++ Platform_OS ++ str ". Check console for details.")
    bot
    (DateAt now).

(** From the settlement of the request to the end: [try], [catch],
    [finally].  [now] is the clock at that time. *)
Definition fetchConversations_settled (now : Z)
           (reply : Reply (list Conversation.t)) (st : State) : State :=
  try_state
    (finally
       (catch (fetchConversations_try reply st)
              (fun _ st => Normal (append (diagnostic now) st)))
       (setIsLoadingConversations false)).

(** *** [loadConversation] *)

Definition loadConversation_call (s : Session) (conversationId : JsString) : Call :=
  fetch (API_BASE ++ str "/conversations/" ++ conversationId ++ str "/messages")
    {| method := GET;
       headers := [authorization s; content_type];
       body := None |}.

(** Up to the [await]. *)
Definition loadConversation (r : Render) (conversationId : JsString)
           (st : State) : Step :=
  match session r with
  | None => Done st
  | Some s =>
      let st := setIsLoading true st in
      let st := setMessages (fun _ => []) st in
      let st := setCurrentConversationId (Some conversationId) st in
      Pending st (loadConversation_call s conversationId)
  end.

Definition loadedMessage (msg : MessageRow.t) : Message.t :=
  Message.mk
    (Some (MessageRow.id msg))
    (MessageRow.content msg)
    (if strict_eq (MessageRow.role msg) (str "user") then user else bot)
    (DateOf (MessageRow.created_at msg)).

Definition loadConversation_try (now : Z)
           (reply : Reply (option ConversationData.t)) (st : State) : Try :=
  match settles reply with
  | Rejected e => Threw e st
  | Fulfilled response =>
      if negb (ok response) then
        let st :=
          setMessages
            (fun _ =>
               [Message.mk
                  (Some (str "error-" ++ toString now))
                  (str "Error loading conversation: "
                     ++ toString (status response)
                     ++ str ". Platform: " ++ Platform_OS)
                  bot
                  (DateAt now)])
            st in
        Threw (server_error response) st
      else
        match json response with
        | None => Threw SyntaxError st
        | Some data =>
            match bind data ConversationData.messages with
            | Some rows =>
                let loadedMessages := map loadedMessage rows in
                Normal (setMessages (fun _ => loadedMessages) st)
            | None =>
                Normal
                  (setMessages
                     (fun _ =>
                        [Message.mk
                           (Some (str "error-format-" ++ toString now))
                           (str "Failed to parse conversation messages.")
                           bot
                           (DateAt now)])
                     st)
            end
        end
  end.

(** The [catch] block reads [messages] through the closure. *)
Definition loadConversation_catch (r : Render) (now : Z) (st : State) : Try :=
  if (List.length (messages (rendered r)) =? 0)%nat then
    Normal
      (setMessages
         (fun _ =>
            [Message.mk
               (Some (str "error-fetch-" ++ toString now))
               (str "An error occurred while fetching conversation. Platform: "
                  ++ Platform_OS)
               bot
               (DateAt now)])
         st)
  else Normal st.

(** From the settlement of the request to the end. *)
Definition loadConversation_settled (r : Render) (now : Z)
           (reply : Reply (option ConversationData.t)) (st : State) : State :=
  try_state
    (finally
       (catch (loadConversation_try now reply st)
              (fun _ st => loadConversation_catch r now st))
       (setIsLoading false)).

(** *** [handleNewChat] *)

Definition handleNewChat (st : State) : State :=
  let st := setCurrentConversationId None st in
  let st := setMessages (fun _ => []) st in
  setInputText [] st.

(** *** [handleDeleteConversation] *)

Definition handleDeleteConversation_call (s : Session)
           (conversationId : JsString) : Call :=
  fetch (API_BASE ++ str "/conversations/" ++ conversationId)
    {| method := DELETE;
       headers := [authorization s];
       body := None |}.

(** Up to the first [await]. *)
Definition handleDeleteConversation (r : Render) (conversationId : JsString)
           (st : State) : Step :=
  match session r with
  | None => Done st
  | Some s =>
      let st := setIsLoading true st in
      Pending st (handleDeleteConversation_call s conversationId)
  end.

(** [messages.find(m => m.id.startsWith('error-delete'))], as a truth
    value; [m.id.startsWith] throws on a message without an id. *)
Fixpoint find_error_delete (ms : list Message.t) : Settled bool :=
  match ms with
  | [] => Fulfilled false
  | m :: ms' =>
      match Message.id m with
      | None => Rejected TypeError
      | Some id =>
          if startsWith id (str "error-delete") then Fulfilled true
          else find_error_delete ms'
      end
  end.

(** The [catch] block reads [messages] through the closure. *)
Definition handleDeleteConversation_catch (r : Render) (now : Z)
           (st : State) : Try :=
  match find_error_delete (messages (rendered r)) with
  | Rejected e => Threw e st
  | Fulfilled true => Normal st
  | Fulfilled false =>
      Normal
        (append
           (Message.mk
              (Some (str "error-delete-fetch-" ++ toString now))
              (str "An error occurred while deleting the conversation.")
              bot
              (DateAt now))
           st)
  end.

(** After [await fetchConversations()]: the rest of the [try] block and
    the [finally]. *)
Definition handleDeleteConversation_rest (r : Render)
           (conversationId : JsString) (st : State) : Step :=
  let st :=
    if strict_eq_opt (currentConversationId (rendered r)) (Some conversationId)
    then handleNewChat st
    else st in
  Done (setIsLoading false st).

(** From the settlement of the [DELETE] request to the second [await]
    (the call of [fetchConversations]), or to the end when the request
    failed. *)
Definition handleDeleteConversation_settled (r : Render)
           (conversationId : JsString) (now : Z) (reply : Reply unit)
           (st : State) : Step :=
  match settles reply with
  | Rejected e =>
      settle (finally (handleDeleteConversation_catch r now st)
                      (setIsLoading false))
  | Fulfilled response =>
      if negb (ok response) then
        let st :=
          append
            (Message.mk
               (Some (str "error-delete-" ++ toString now))
               (str "Error deleting conversation: "
                  ++ toString (status response)
                  ++ str ". Please try again.")
               bot
               (DateAt now))
            st in
        settle (finally
                  (catch (Threw (server_error response) st)
                         (fun _ st => handleDeleteConversation_catch r now st))
                  (setIsLoading false))
      else
        match fetchConversations r st with
        | Pending st call => Pending st call
        | Done st => handleDeleteConversation_rest r conversationId st
        | Failed e st => Failed e (setIsLoading false st)
        end
  end.

(** From the settlement of the list request to the end. *)
Definition handleDeleteConversation_refreshed (r : Render)
           (conversationId : JsString) (now : Z)
           (reply : Reply (list Conversation.t)) (st : State) : Step :=
  let st := fetchConversations_settled now reply st in
  handleDeleteConversation_rest r conversationId st.

(** *** [handleSendMessage] *)

Definition handleSendMessage_call (s : Session)
           (requestBody : RequestBody.t) : Call :=
  fetchWithTimeout API_ENDPOINT
    {| method := POST;
       headers := [content_type; authorization s];
       body := Some requestBody |}
    FETCH_TIMEOUT.

(** The synchronous part: the two guards, the optimistic append, and the
    request.  (The outer [try] has nothing that throws: its [catch] is
    never entered.) *)
Definition handleSendMessage (r : Render) (now : Z) (st : State) : Step :=
  if strict_eq (trim (inputText (rendered r))) [] then Done st
  else
    match session r with
    | None =>
        Done (append
                (Message.mk
                   (Some (toString now))
                   (str "Authentication error. Please log in again.")
                   bot
                   (DateAt now))
                st)
    | Some s =>
        let userMessage :=
          Message.mk (Some (toString now)) (inputText (rendered r)) user
                     (DateAt now) in
        let st := append userMessage st in
        let messageToSend := inputText (rendered r) in
        let st := setInputText [] st in
        let st := setIsLoading true st in
        let requestBody :=
          RequestBody.mk
            messageToSend
            (if truthy (currentConversationId (rendered r))
             then currentConversationId (rendered r)
             else None) in
        Pending st (handleSendMessage_call s requestBody)
    end.

(** The first [.then]: reject a response that is not [ok], else decode. *)
Definition handleSendMessage_response
           (response : Response (option ChatResponse.t))
  : Settled (option ChatResponse.t) :=
  if negb (ok response) then Rejected (server_error response)
  else
    match json response with
    | None => Rejected SyntaxError
    | Some data => Fulfilled data
    end.

Definition data_response (data : option ChatResponse.t) :=
  bind data ChatResponse.response.
Definition data_response_content (data : option ChatResponse.t) :=
  bind (data_response data) AssistantMessage.content.
Definition data_response_id (data : option ChatResponse.t) :=
  bind (data_response data) AssistantMessage.id.
Definition data_response_created_at (data : option ChatResponse.t) :=
  bind (data_response data) AssistantMessage.created_at.
Definition data_conversation_id (data : option ChatResponse.t) :=
  bind data ChatResponse.conversation_id.

(** [data && data.response && data.response.content && data.conversation_id] *)
Definition expected_format (data : option ChatResponse.t) : bool :=
  isSome data && isSome (data_response data)
  && truthy (data_response_content data)
  && truthy (data_conversation_id data).

(** The second [.then]. *)
Definition handleSendMessage_data (r : Render) (now : Z)
           (data : option ChatResponse.t) (st : State) : Step :=
  if expected_format data then
    let botMessage :=
      Message.mk
        (data_response_id data)
        (the (data_response_content data))
        bot
        (if truthy (data_response_created_at data)
         then DateOf (the (data_response_created_at data))
         else DateAt now) in
    let st := append botMessage st in
    if negb (truthy (currentConversationId (rendered r)))
       || negb (strict_eq_opt (currentConversationId (rendered r))
                              (data_conversation_id data))
    then
      let st := setCurrentConversationId (data_conversation_id data) st in
      if negb (truthy (currentConversationId (rendered r)))
      then fetchConversations r st
      else Done st
    else Done st
  else
    let errorBotMessage :=
      Message.mk
        (Some (toString (now + 2)))
        (str "Error: Bot response format is unexpected.")
        bot
        (DateAt now) in
    Done (append errorBotMessage st).

(** The [.catch]. *)
Definition handleSendMessage_catch (now : Z) (st : State) : State :=
  append
    (Message.mk
       (Some (toString (now + 1)))
       (str "Error sending message on " ++ Platform_OS
          ++ str ". Check console for details.")
       bot
       (DateAt now))
    st.

(** The promise chain, from the settlement of the request on:
    [.then], [.then], [.catch], [.finally]. *)
Definition handleSendMessage_settled (r : Render) (now : Z)
           (reply : Reply (option ChatResponse.t)) (st : State) : Step :=
  let chained :=
    match race FETCH_TIMEOUT reply with
    | Rejected e => Rejected e
    | Fulfilled response => handleSendMessage_response response
    end in
  match chained with
  | Fulfilled data =>
      with_state (setIsLoading false) (handleSendMessage_data r now data st)
  | Rejected _ =>
      Done (setIsLoading false (handleSendMessage_catch now st))
  end.

(** *** Handlers run without interruption

    A handler invoked from the screen closes over the state on display.
    [run_*] runs its pieces one after the other, with nothing else
    touching the state in between, and collects the requests issued. *)

Definition render (sess : option Session) (st : State) : Render :=
  {| session := sess; rendered := st |}.

Definition run_fetchConversations (sess : option Session) (now : Z)
           (reply : Reply (list Conversation.t)) (st : State)
  : State * list Call :=
  match fetchConversations (render sess st) st with
  | Pending st1 c1 => (fetchConversations_settled now reply st1, [c1])
  | s1 => (state_of s1, [])
  end.

Definition run_loadConversation (sess : option Session)
           (conversationId : JsString) (now : Z)
           (reply : Reply (option ConversationData.t)) (st : State)
  : State * list Call :=
  let r := render sess st in
  match loadConversation r conversationId st with
  | Pending st1 c1 => (loadConversation_settled r now reply st1, [c1])
  | s1 => (state_of s1, [])
  end.

Definition run_handleDeleteConversation (sess : option Session)
           (conversationId : JsString)
           (now : Z) (reply : Reply unit)
           (now' : Z) (reply' : Reply (list Conversation.t))
           (st : State)
  : State * list Call :=
  let r := render sess st in
  match handleDeleteConversation r conversationId st with
  | Pending st1 c1 =>
      match handleDeleteConversation_settled r conversationId now reply st1 with
      | Pending st2 c2 =>
          let s3 :=
            handleDeleteConversation_refreshed r conversationId now' reply' st2 in
          (state_of s3, [c1; c2] ++ calls_of s3)
      | s2 => (state_of s2, [c1])
      end
  | s1 => (state_of s1, [])
  end.

Definition run_handleSendMessage (sess : option Session)
           (now : Z) (now' : Z) (reply : Reply (option ChatResponse.t))
           (st : State)
  : State * list Call :=
  let r := render sess st in
  match handleSendMessage r now st with
  | Pending st1 c1 =>
      let s2 := handleSendMessage_settled r now' reply st1 in
      (state_of s2, c1 :: calls_of s2)
  | s1 => (state_of s1, [])
  end.

(** A request that lists the conversations: [GET API_BASE/conversations]. *)
Definition is_refresh (c : Call) : bool :=
  let lists url options :=
    strict_eq url (API_BASE ++ str "/conversations")
    && match method options with GET => true | _ => false end in
  match c with
  | fetch url options => lists url options
  | fetchWithTimeout url options _ => lists url options
  end.

Definition refreshes (calls : list Call) : nat :=
  List.length (filter is_refresh calls).

(** The text is empty or only white space: [text.trim() === ''] holds. *)
Definition blank (text : JsString) : bool := forallb isWhiteSpace text.

(** The server acknowledged the send: the reply came within the timeout
    with a 2xx status and a body of the expected format. *)
Definition send_acknowledged (reply : Reply (option ChatResponse.t)) : bool :=
  match race FETCH_TIMEOUT reply with
  | Fulfilled response =>
      ok response
      && match json response with
         | Some data => expected_format data
         | None => false
         end
  | Rejected _ => false
  end.

(** The server acknowledged the delete: the reply has a 2xx status. *)
Definition delete_acknowledged (reply : Reply unit) : bool :=
  match settles reply with
  | Fulfilled response => ok response
  | Rejected _ => false
  end.

(** *** [testBackendConnection] and the effect on the session *)

(** The [options] of a call. *)
Definition options_of (c : Call) : Options :=
  match c with
  | fetch _ options => options
  | fetchWithTimeout _ options _ => options
  end.

(** The connectivity probe: no header, a timeout of five seconds. *)
Definition testBackendConnection_test_call : Call :=
  fetchWithTimeout (API_BASE ++ str "/test")
    {| method := GET; headers := []; body := None |}
    5000.

(** The credential probe. *)
Definition testBackendConnection_auth_call (s : Session) : Call :=
  fetchWithTimeout (API_BASE ++ str "/test-auth")
    {| method := GET;
       headers := [authorization s; content_type];
       body := None |}
    5000.

(** The result of one piece of [testBackendConnection]: the value it
    returns, or the probe it awaits next.  The function touches no state. *)
Inductive Probe :=
| Answer (b : bool)
| Ask (call : Call).

(** Up to the first [await]. *)
Definition testBackendConnection (sess : option Session) : Probe :=
  Ask testBackendConnection_test_call.

(** From the settlement of the connectivity probe to the second [await],
    or to the [return]; a rejection is caught and gives [false]. *)
Definition testBackendConnection_connectivity (sess : option Session)
           (reply : Reply unit) : Probe :=
  match race 5000 reply with
  | Rejected _ => Answer false
  | Fulfilled connectivityTest =>
      if ok connectivityTest then
        match sess with
        | Some s =>
            if truthy (Some (access_token s))
            then Ask (testBackendConnection_auth_call s)
            else Answer false
        | None => Answer false
        end
      else Answer false
  end.

(** From the settlement of the credential probe to the [return]. *)
Definition testBackendConnection_auth (reply : Reply unit) : bool :=
  match race 5000 reply with
  | Rejected _ => false
  | Fulfilled authTest =>
      if ok authTest then
        match json authTest with
        | Some authData => true
        | None => false
        end
      else false
  end.

(** [testBackendConnection] run to its end: the value returned and the
    probes issued. *)
Definition run_testBackendConnection (sess : option Session)
           (reply reply' : Reply unit) : bool * list Call :=
  match testBackendConnection sess with
  | Answer b => (b, [])
  | Ask c1 =>
      match testBackendConnection_connectivity sess reply with
      | Answer b => (b, [c1])
      | Ask c2 => (testBackendConnection_auth reply', [c1; c2])
      end
  end.

(** The [.then] of the effect run when the session changes. *)
Definition sessionEffect_connected (r : Render) (now : Z) (connectionOk : bool)
           (st : State) : Step :=
  if connectionOk then fetchConversations r st
  else
    Done (setMessages
            (fun _ =>
               [Message.mk
                  (Some (str "connection-error-" ++ toString now))
                  (str "Unable to connect to chat backend. Please check your connection.")
                  bot
                  (DateAt now)])
            st).

(** The effect run to its end, from the render of [st]. *)
Definition run_sessionEffect (sess : option Session)
           (reply reply' : Reply unit) (now : Z)
           (now' : Z) (reply_list : Reply (list Conversation.t))
           (st : State) : State * list Call :=
  match sess with
  | None => (st, [])
  | Some _ =>
      let probed := run_testBackendConnection sess reply reply' in
      match sessionEffect_connected (render sess st) now (fst probed) st with
      | Pending st1 c =>
          (fetchConversations_settled now' reply_list st1, snd probed ++ [c])
      | s1 => (state_of s1, snd probed)
      end
  end.

(** The list request was acknowledged: the reply came within the timeout
    with a 2xx status and a body that decodes. *)
Definition list_acknowledged (reply : Reply (list Conversation.t)) : bool :=
  match race FETCH_TIMEOUT reply with
  | Fulfilled response => ok response && isSome (json response)
  | Rejected _ => false
  end.

(** The load request got no usable answer: the request was rejected, or
    the body of a 2xx response does not decode. *)
Definition load_unanswered (reply : Reply (option ConversationData.t)) : bool :=
  match settles reply with
  | Rejected _ => true
  | Fulfilled response => ok response && negb (isSome (json response))
  end.

(** A probe passed: answered within five seconds with a 2xx status. *)
Definition probe_passed (reply : Reply unit) : bool :=
  match race 5000 reply with
  | Fulfilled response => ok response
  | Rejected _ => false
  end.

(** A send that failed, read off the reply alone: the timer won, the
    request was rejected, the status is outside 2xx, the body does not
    decode, or the body is null or lacks (or has an empty)
    [conversation_id], [response] or [response.content]. *)
Definition send_failed (reply : Reply (option ChatResponse.t)) : bool :=
  (FETCH_TIMEOUT <=? latency reply)
  || match settles reply with
     | Rejected _ => true
     | Fulfilled response =>
         negb ((200 <=? status response) && (status response <=? 299))
         || match json response with
            | None => true
            | Some None => true
            | Some (Some data) =>
                negb (truthy (ChatResponse.conversation_id data))
                || match ChatResponse.response data with
                   | None => true
                   | Some assistant =>
                       negb (truthy (AssistantMessage.content assistant))
                   end
            end
     end.

(** A delete that failed, read off the reply alone: the request was
    rejected, or the status is outside 2xx. *)
Definition delete_failed (reply : Reply unit) : bool :=
  match settles reply with
  | Rejected _ => true
  | Fulfilled response =>
      negb ((200 <=? status response) && (status response <=? 299))
  end.

(** *** A send with the list refresh it triggers *)

(** [handleSendMessage] run without interruption, and after it the
    continuation of the list refresh when the promise chain started one. *)
Definition run_handleSendMessage_refreshed (sess : option Session)
           (now : Z) (now' : Z) (reply : Reply (option ChatResponse.t))
           (now'' : Z) (reply_list : Reply (list Conversation.t))
           (st : State)
  : State * list Call :=
  let r := render sess st in
  match handleSendMessage r now st with
  | Pending st1 c1 =>
      match handleSendMessage_settled r now' reply st1 with
      | Pending st2 c2 =>
          (fetchConversations_settled now'' reply_list st2, [c1; c2])
      | s2 => (state_of s2, [c1])
      end
  | s1 => (state_of s1, [])
  end.

(** *** Handlers in the long run *)

(** Where a handler stays when the promise it awaits never settles: the
    state it left and the request it issued. *)
Definition stuck (s : Step) : State * list Call :=
  (state_of s, calls_of s).

(** [handleSendMessage] in the long run.  When the [fetch] never settles
    the timer rejects, and the chain runs [.catch] and [.finally].  When
    the response is there in time, the first [.then] reads the body
    ([text()] or [json()]): if that never settles, neither the rest of the
    chain nor [.finally] runs. *)
Definition eventually_handleSendMessage (sess : option Session)
           (now now' : Z) (fate : Fate (option ChatResponse.t)) (st : State)
  : State * list Call :=
  match fate with
  | Settles reply => run_handleSendMessage sess now now' reply st
  | Stalls reply =>
      match race FETCH_TIMEOUT reply with
      | Rejected _ => run_handleSendMessage sess now now' reply st
      | Fulfilled _ => stuck (handleSendMessage (render sess st) now st)
      end
  | Hangs =>
      match handleSendMessage (render sess st) now st with
      | Pending st1 c1 =>
          (setIsLoading false (handleSendMessage_catch now' st1), [c1])
      | s1 => stuck s1
      end
  end.

(** [loadConversation] in the long run.  Its [fetch] has no timer; with a
    response, [text()] or [json()] is awaited before any setter. *)
Definition eventually_loadConversation (sess : option Session)
           (conversationId : JsString) (now : Z)
           (fate : Fate (option ConversationData.t)) (st : State)
  : State * list Call :=
  match fate with
  | Settles reply => run_loadConversation sess conversationId now reply st
  | Stalls reply =>
      match settles reply with
      | Rejected _ => run_loadConversation sess conversationId now reply st
      | Fulfilled _ =>
          stuck (loadConversation (render sess st) conversationId st)
      end
  | Hangs => stuck (loadConversation (render sess st) conversationId st)
  end.

(** [handleDeleteConversation] in the long run, by the fate of its
    [DELETE] request (the list request it goes on to is taken to settle).
    Its [fetch] has no timer; the body is read, by [text()], only of a
    response that is not [ok]. *)
Definition eventually_handleDeleteConversation (sess : option Session)
           (conversationId : JsString) (now : Z) (fate : Fate unit)
           (now' : Z) (reply' : Reply (list Conversation.t)) (st : State)
  : State * list Call :=
  match fate with
  | Settles reply =>
      run_handleDeleteConversation sess conversationId now reply now' reply' st
  | Stalls reply =>
      match settles reply with
      | Rejected _ =>
          run_handleDeleteConversation sess conversationId now reply
                                       now' reply' st
      | Fulfilled response =>
          if ok response then
            run_handleDeleteConversation sess conversationId now reply
                                         now' reply' st
          else
            stuck (handleDeleteConversation (render sess st) conversationId st)
      end
  | Hangs =>
      stuck (handleDeleteConversation (render sess st) conversationId st)
  end.

(** ** Properties *)

(** *** Strings *)

Lemma strict_eq_spec (a b : JsString) : strict_eq a b = true <-> a = b.
Proof.
  revert b; induction a as [|c a IH]; intros [|d b]; simpl;
    try (split; [discriminate | congruence]); try tauto.
  rewrite andb_true_iff, N.eqb_eq, IH.
  split; [intros [-> ->]; reflexivity | intros H; inversion H; auto].
Qed.

Lemma strict_eq_refl (a : JsString) : strict_eq a a = true.
Proof. apply strict_eq_spec; reflexivity. Qed.

Lemma strict_eq_nil (a : JsString) :
  strict_eq a [] = match a with [] => true | _ => false end.
Proof. destruct a; reflexivity. Qed.

Lemma trimStart_nil (s : JsString) : trimStart s = [] <-> blank s = true.
Proof.
  unfold blank; induction s as [|c s IH]; simpl.
  - tauto.
  - destruct (isWhiteSpace c); simpl; [exact IH | split; discriminate].
Qed.

Lemma blank_trimStart (s : JsString) : blank (trimStart s) = blank s.
Proof.
  unfold blank; induction s as [|c s IH]; simpl; [reflexivity|].
  destruct (isWhiteSpace c) eqn:E; simpl; [exact IH | now rewrite E].
Qed.

Lemma blank_rev (s : JsString) : blank (rev s) = blank s.
Proof.
  unfold blank; induction s as [|c s IH]; simpl; [reflexivity|].
  rewrite forallb_app, IH; simpl.
  rewrite andb_true_r; apply andb_comm.
Qed.

(** The guard of [handleSendMessage]: [text.trim() === ''] holds exactly
    on the texts made of white space only. *)
Lemma trim_blank (s : JsString) : strict_eq (trim s) [] = blank s.
Proof.
  apply eq_true_iff_eq.
  rewrite strict_eq_spec; unfold trim, trimEnd.
  rewrite <- (blank_trimStart s), <- (blank_rev (trimStart s)),
    <- trimStart_nil.
  split; intros H.
  - apply (f_equal (@rev N)) in H; rewrite rev_involutive in H; exact H.
  - now rewrite H.
Qed.

(** *** The pieces of the handlers *)

Ltac cases :=
  repeat match goal with
    | |- context [match ?x with _ => _ end] => destruct x eqn:?; simpl
    end.

(** [fetchConversations] writes [isLoadingConversations] only. *)
Lemma fetchConversations_state (r : Render) (st : State) :
  state_of (fetchConversations r st)
  = match session r with
    | Some _ => setIsLoadingConversations true st
    | None => st
    end.
Proof. unfold fetchConversations; destruct (session r); reflexivity. Qed.

Lemma fetchConversations_calls (r : Render) (st : State) :
  calls_of (fetchConversations r st)
  = match session r with
    | Some s => [fetchConversations_call s]
    | None => []
    end.
Proof. unfold fetchConversations; destruct (session r); reflexivity. Qed.

(** The continuation of [fetchConversations] leaves the current
    identifier, the input text and [isLoading] alone. *)
Lemma fetchConversations_settled_frame now reply st :
  let st' := fetchConversations_settled now reply st in
  currentConversationId st' = currentConversationId st
  /\ inputText st' = inputText st
  /\ isLoading st' = isLoading st
  /\ isLoadingConversations st' = false.
Proof.
  unfold fetchConversations_settled, fetchConversations_try.
  cases; auto.
Qed.

(** It commutes with a write of [isLoading]. *)
Lemma fetchConversations_settled_setIsLoading now reply b st :
  fetchConversations_settled now reply (setIsLoading b st)
  = setIsLoading b (fetchConversations_settled now reply st).
Proof.
  unfold fetchConversations_settled, fetchConversations_try.
  cases; reflexivity.
Qed.

(** What the synchronous part of [handleSendMessage] does once both
    guards are passed. *)
Lemma handleSendMessage_dispatched (r : Render) (s : Session) now st :
  session r = Some s ->
  blank (inputText (rendered r)) = false ->
  handleSendMessage r now st
  = Pending
      (setIsLoading true
         (setInputText []
            (append (Message.mk (Some (toString now))
                                (inputText (rendered r)) user (DateAt now))
                    st)))
      (handleSendMessage_call s
         (RequestBody.mk
            (inputText (rendered r))
            (if truthy (currentConversationId (rendered r))
             then currentConversationId (rendered r) else None))).
Proof.
  intros Hs Hb; unfold handleSendMessage.
  now rewrite trim_blank, Hb, Hs.
Qed.

(** The promise chain of [handleSendMessage] never writes the input
    text, and always ends with [isLoading] false. *)
Lemma handleSendMessage_settled_frame (r : Render) now reply st :
  let st' := state_of (handleSendMessage_settled r now reply st) in
  inputText st' = inputText st /\ isLoading st' = false.
Proof.
  unfold handleSendMessage_settled, handleSendMessage_response,
    handleSendMessage_data, fetchConversations.
  cases; auto.
Qed.

(** *** Requests and replies *)

Lemma ok_spec {B} (response : Response B) :
  ok response = true <-> 200 <= status response <= 299.
Proof. unfold ok; rewrite andb_true_iff, !Z.leb_le; tauto. Qed.

Lemma ok_false {B} (response : Response B) :
  ok response = false <-> ~ 200 <= status response <= 299.
Proof. rewrite <- ok_spec; destruct (ok response); intuition congruence. Qed.

Lemma race_in_time {B} (reply : Reply B) timeout :
  latency reply < timeout -> race timeout reply = settles reply.
Proof. intros H; unfold race; now apply Z.ltb_lt in H; rewrite H. Qed.

Lemma race_timed_out {B} (reply : Reply B) timeout :
  timeout <= latency reply ->
  race timeout reply = Rejected (Error (str "Network request timed out")).
Proof. intros H; unfold race; now apply Z.ltb_ge in H; rewrite H. Qed.

Lemma strict_eq_opt_spec (a b : option JsString) :
  strict_eq_opt a b = true <-> a = b.
Proof.
  destruct a as [a|], b as [b|]; simpl;
    try (split; [discriminate | congruence]); try tauto.
  rewrite strict_eq_spec; split; congruence.
Qed.

Lemma is_refresh_fetchConversations_call (s : Session) :
  is_refresh (fetchConversations_call s) = true.
Proof. unfold is_refresh; simpl; now rewrite strict_eq_refl. Qed.

Lemma is_refresh_handleSendMessage_call (s : Session) requestBody :
  is_refresh (handleSendMessage_call s requestBody) = false.
Proof. unfold is_refresh; simpl; apply andb_false_r. Qed.

Lemma is_refresh_handleDeleteConversation_call (s : Session) cid :
  is_refresh (handleDeleteConversation_call s cid) = false.
Proof. unfold is_refresh; simpl; apply andb_false_r. Qed.

(** Which requests run against the timer. *)
Lemma await_calls (s : Session) (cid : JsString) (requestBody : RequestBody.t) :
  (forall reply : Reply (list Conversation.t),
      await (fetchConversations_call s) reply = race FETCH_TIMEOUT reply)
  /\ (forall reply : Reply (option ChatResponse.t),
        await (handleSendMessage_call s requestBody) reply
        = race FETCH_TIMEOUT reply)
  /\ (forall reply : Reply (option ConversationData.t),
        await (loadConversation_call s cid) reply = settles reply)
  /\ (forall reply : Reply unit,
        await (handleDeleteConversation_call s cid) reply = settles reply).
Proof. repeat split. Qed.

(** The error of the timer is not the error thrown for a response that is
    not [ok]. *)
Lemma timeout_error_is_not_server_error {B} (response : Response B) :
  Error (str "Network request timed out") <> server_error response.
Proof. unfold server_error; simpl; intros H; inversion H. Qed.

(** A reply that comes at the timeout or later is lost to
    [fetchConversations] and to [handleSendMessage], whatever it holds:
    both end on their error path. *)
Lemma late_reply_is_dropped (r : Render) now st
      (reply : Reply (list Conversation.t))
      (reply' : Reply (option ChatResponse.t)) :
  FETCH_TIMEOUT <= latency reply ->
  FETCH_TIMEOUT <= latency reply' ->
  fetchConversations_settled now reply st
  = setIsLoadingConversations false (append (diagnostic now) st)
  /\ handleSendMessage_settled r now reply' st
     = Done (setIsLoading false (handleSendMessage_catch now st)).
Proof.
  intros H H'.
  unfold fetchConversations_settled, fetchConversations_try,
    handleSendMessage_settled.
  now rewrite (race_timed_out _ _ H), (race_timed_out _ _ H').
Qed.

(** *** The continuations *)

(** The promise chain on a reply that arrives in time, is [ok] and
    decodes: the second [.then] runs on the decoded body, then the
    [.finally]. *)
Lemma handleSendMessage_settled_decoded (r : Render) now reply response data st :
  latency reply < FETCH_TIMEOUT ->
  settles reply = Fulfilled response ->
  200 <= status response <= 299 ->
  json response = Some data ->
  handleSendMessage_settled r now reply st
  = with_state (setIsLoading false) (handleSendMessage_data r now data st).
Proof.
  intros Hl Hf Hok Hj; unfold handleSendMessage_settled.
  rewrite (race_in_time _ _ Hl), Hf; unfold handleSendMessage_response.
  apply ok_spec in Hok; now rewrite Hok, Hj.
Qed.

(** A send that is not acknowledged ends with one bot message appended
    and nothing else changed but [isLoading]. *)
Lemma handleSendMessage_settled_failed (r : Render) now reply st :
  send_acknowledged reply = false ->
  exists m,
    Message.sender m = bot
    /\ handleSendMessage_settled r now reply st
       = Done (setIsLoading false (append m st)).
Proof.
  unfold send_acknowledged, handleSendMessage_settled,
    handleSendMessage_response, handleSendMessage_data.
  destruct (race FETCH_TIMEOUT reply) as [response|e].
  - destruct (ok response); simpl.
    + destruct (json response) as [data|].
      * intros ->; eexists; split; [|reflexivity]; reflexivity.
      * intros _; eexists; split; [|reflexivity]; reflexivity.
    + intros _; eexists; split; [|reflexivity]; reflexivity.
  - intros _; eexists; split; [|reflexivity]; reflexivity.
Qed.

(** A 2xx reply whose body lacks (or has empty) one of the fields the
    code tests: the format-error message is appended, and no other. *)
Lemma handleSendMessage_unexpected_format (r : Render) now reply response data st :
  latency reply < FETCH_TIMEOUT ->
  settles reply = Fulfilled response ->
  200 <= status response <= 299 ->
  json response = Some data ->
  expected_format data = false ->
  handleSendMessage_settled r now reply st
  = Done (setIsLoading false
            (append (Message.mk
                       (Some (toString (now + 2)))
                       (str "Error: Bot response format is unexpected.")
                       bot (DateAt now))
                    st)).
Proof.
  intros Hl Hf Hok Hj He.
  rewrite (handleSendMessage_settled_decoded _ _ _ _ _ _ Hl Hf Hok Hj).
  unfold handleSendMessage_data; now rewrite He.
Qed.

(** The [id] of the bot response is not among the fields tested: a body
    without it passes, and the bot message is appended without an id. *)
Lemma handleSendMessage_data_without_id (r : Render) now cid content created st :
  cid <> [] ->
  content <> [] ->
  let data :=
    Some (ChatResponse.mk
            (Some cid)
            (Some (AssistantMessage.mk None (Some content) created))) in
  expected_format data = true
  /\ messages (state_of (handleSendMessage_data r now data st))
     = messages st
         ++ [Message.mk None content bot
               (if truthy created then DateOf (the created) else DateAt now)].
Proof.
  intros Hcid Hcontent.
  destruct cid as [|c cid]; [congruence|].
  destruct content as [|d content]; [congruence|].
  split; [reflexivity|].
  unfold handleSendMessage_data, fetchConversations, expected_format,
    data_response_created_at, data_response_id, data_response_content,
    data_conversation_id, data_response; simpl.
  cases; reflexivity.
Qed.

Lemma loadConversation_settled_isLoading (r : Render) now reply st :
  isLoading (loadConversation_settled r now reply st) = false.
Proof.
  unfold loadConversation_settled, loadConversation_try, loadConversation_catch.
  cases; reflexivity.
Qed.

(** The continuation of the [DELETE] request either ends with the flag
    down, or leaves the list request in flight with the flag untouched. *)
Lemma handleDeleteConversation_settled_isLoading (r : Render) cid now reply st :
  match handleDeleteConversation_settled r cid now reply st with
  | Pending st' _ => isLoading st' = isLoading st
  | s' => isLoading (state_of s') = false
  end.
Proof.
  unfold handleDeleteConversation_settled.
  destruct (settles reply) as [response|e].
  - destruct (ok response); simpl.
    + unfold fetchConversations, handleDeleteConversation_rest.
      destruct (session r); reflexivity.
    + unfold handleDeleteConversation_catch.
      destruct (find_error_delete _) as [[|]|]; reflexivity.
  - unfold handleDeleteConversation_catch.
    destruct (find_error_delete _) as [[|]|]; reflexivity.
Qed.

(** *** Claims on [handleSendMessage]: the local guards *)

(** C8.  A text that is empty or made of white space only is refused at
    the first guard: [handleSendMessage] returns at once with the state as
    it was, so no request is issued and neither the message list nor the
    conversation list gains an entry; the same holds of the whole run. *)
Theorem blank_text_is_not_sent :
  forall (sess : option Session) (seen : State) (now : Z) (st : State),
    blank (inputText seen) = true ->
    handleSendMessage (render sess seen) now st = Done st
    /\ calls_of (handleSendMessage (render sess seen) now st) = []
    /\ messages (state_of (handleSendMessage (render sess seen) now st))
       = messages st
    /\ conversations (state_of (handleSendMessage (render sess seen) now st))
       = conversations st
    /\ forall now' reply,
        run_handleSendMessage sess now now' reply seen = (seen, []).
Proof.
  intros sess seen now st Hb.
  assert (E : forall st', handleSendMessage (render sess seen) now st' = Done st').
  { intros st'; unfold handleSendMessage; simpl; now rewrite trim_blank, Hb. }
  rewrite E; simpl; repeat split.
  intros now' reply; unfold run_handleSendMessage; now rewrite E.
Qed.

(** C10.  With a text that is not blank.  When a session is present, the
    synchronous part appends the user's message, empties the input text
    and leaves the request in flight, all before the request settles; the
    promise chain run at settlement leaves the input text as it finds it
    whatever the reply, so the run ends with the input text empty.  When
    no session is present, the only change is the authentication-error
    message appended to the list: the input text stays. *)
Theorem send_input_text :
  forall (s : Session) (seen : State) (now : Z) (st : State),
    blank (inputText seen) = false ->
    (exists c,
        handleSendMessage (render (Some s) seen) now st
        = Pending
            (setIsLoading true
               (setInputText []
                  (append (Message.mk (Some (toString now)) (inputText seen)
                                      user (DateAt now))
                          st)))
            c)
    /\ (forall now' reply st',
          inputText (state_of (handleSendMessage_settled
                                 (render (Some s) seen) now' reply st'))
          = inputText st')
    /\ (forall now' reply,
          inputText (fst (run_handleSendMessage (Some s) now now' reply seen))
          = [])
    /\ handleSendMessage (render None seen) now st
       = Done (append
                 (Message.mk (Some (toString now))
                    (str "Authentication error. Please log in again.")
                    bot (DateAt now))
                 st)
    /\ inputText (state_of (handleSendMessage (render None seen) now st))
       = inputText st.
Proof.
  intros s seen now st Hb.
  assert (E : forall st',
             handleSendMessage (render (Some s) seen) now st'
             = Pending _ _)
    by (intros st'; exact (handleSendMessage_dispatched
                             (render (Some s) seen) s now st' eq_refl Hb)).
  split; [|split; [|split; [|split]]].
  - eexists; apply E.
  - intros now' reply st'; apply handleSendMessage_settled_frame.
  - intros now' reply; unfold run_handleSendMessage; rewrite E; simpl.
    match goal with
    | |- inputText (state_of (handleSendMessage_settled ?r ?n ?rp ?x)) = _ =>
        rewrite (proj1 (handleSendMessage_settled_frame r n rp x))
    end.
    reflexivity.
  - unfold handleSendMessage; simpl; now rewrite trim_blank, Hb.
  - unfold handleSendMessage; simpl; now rewrite trim_blank, Hb.
Qed.

(** *** Claim on the loading flag *)

(** C9, as amended.  A dispatched call of [handleSendMessage] (a session
    and a text that is not blank), of [loadConversation] or of
    [handleDeleteConversation] (a session): the synchronous part leaves a
    request in flight with [isLoading] true.  Every continuation, on every
    reply of the network (a request that settles, in time or not, and
    whose body is read) and from every state, ends with [isLoading]
    false; the one exception is the continuation of the [DELETE] request
    when it leaves the list request in flight, which keeps the flag as it
    is, and the continuation that follows ends with [isLoading] false.  So
    each of the three runs ends with the flag false, on every reply. *)
Theorem loading_flag_is_reset :
  forall (s : Session) (typed seen : State) (cid : JsString) (now : Z)
         (st : State),
    blank (inputText typed) = false ->
    (exists st1 c,
        handleSendMessage (render (Some s) typed) now st = Pending st1 c
        /\ isLoading st1 = true)
    /\ (exists st1 c,
          loadConversation (render (Some s) seen) cid st = Pending st1 c
          /\ isLoading st1 = true)
    /\ (exists st1 c,
          handleDeleteConversation (render (Some s) seen) cid st
          = Pending st1 c
          /\ isLoading st1 = true)
    /\ (forall now' reply st',
          isLoading (state_of (handleSendMessage_settled
                                 (render (Some s) seen) now' reply st'))
          = false)
    /\ (forall now' reply st',
          isLoading (loadConversation_settled
                       (render (Some s) seen) now' reply st')
          = false)
    /\ (forall now' reply st',
          match handleDeleteConversation_settled
                  (render (Some s) seen) cid now' reply st' with
          | Pending st2 _ => isLoading st2 = isLoading st'
          | s2 => isLoading (state_of s2) = false
          end)
    /\ (forall now' reply st',
          isLoading (state_of (handleDeleteConversation_refreshed
                                 (render (Some s) seen) cid now' reply st'))
          = false)
    /\ (forall now' reply,
          isLoading (fst (run_handleSendMessage (Some s) now now' reply typed))
          = false)
    /\ (forall now' reply,
          isLoading (fst (run_loadConversation (Some s) cid now' reply st))
          = false)
    /\ (forall now' reply now'' reply',
          isLoading
            (fst (run_handleDeleteConversation (Some s) cid now' reply
                                               now'' reply' st))
          = false).
Proof.
  intros s typed seen cid now st Hb.
  split; [|split; [|split; [|split; [|split; [|split; [|split;
    [|split; [|split]]]]]]]].
  - rewrite (handleSendMessage_dispatched (render (Some s) typed) s now st
               eq_refl Hb).
    eexists; eexists; split; reflexivity.
  - eexists; eexists; split; reflexivity.
  - eexists; eexists; split; reflexivity.
  - intros; apply handleSendMessage_settled_frame.
  - intros; apply loadConversation_settled_isLoading.
  - intros; apply handleDeleteConversation_settled_isLoading.
  - reflexivity.
  - intros now' reply; unfold run_handleSendMessage.
    rewrite (handleSendMessage_dispatched (render (Some s) typed) s now typed
               eq_refl Hb); simpl.
    apply handleSendMessage_settled_frame.
  - intros now' reply; unfold run_loadConversation; simpl.
    apply loadConversation_settled_isLoading.
  - intros now' reply now'' reply'.
    unfold run_handleDeleteConversation; simpl.
    pose proof (handleDeleteConversation_settled_isLoading
                  (render (Some s) st) cid now' reply (setIsLoading true st)) as H.
    destruct (handleDeleteConversation_settled _ _ _ _ _); simpl; auto.
Qed.

(** *** Claim on a send that succeeds *)

(** C1.  A send that succeeds: the reply arrives within the timeout, has
    a 2xx status, and its body carries a conversation identifier [cid]
    and a bot response with a content.  From a state with no current
    identifier, the run ends with [cid] current and issues exactly one
    request that lists the conversations.  From a state where [cid] is
    current already, the run ends with the identifier as it was and
    issues no such request. *)
Theorem send_success_identifier :
  forall (s : Session) (now now' : Z) (reply : Reply (option ChatResponse.t))
         (response : Response (option ChatResponse.t))
         (cid content : JsString) (mid created : option JsString)
         (st_new st_known : State),
    blank (inputText st_new) = false ->
    blank (inputText st_known) = false ->
    currentConversationId st_new = None ->
    currentConversationId st_known = Some cid ->
    latency reply < FETCH_TIMEOUT ->
    settles reply = Fulfilled response ->
    200 <= status response <= 299 ->
    json response
    = Some (Some (ChatResponse.mk
                    (Some cid)
                    (Some (AssistantMessage.mk mid (Some content) created)))) ->
    cid <> [] ->
    content <> [] ->
    (currentConversationId
       (fst (run_handleSendMessage (Some s) now now' reply st_new))
     = Some cid
     /\ refreshes (snd (run_handleSendMessage (Some s) now now' reply st_new))
        = 1%nat)
    /\ (currentConversationId
          (fst (run_handleSendMessage (Some s) now now' reply st_known))
        = currentConversationId st_known
        /\ refreshes
             (snd (run_handleSendMessage (Some s) now now' reply st_known))
           = 0%nat).
Proof.
  intros s now now' reply response cid content mid created st_new st_known
         Hb Hb' Hnew Hknown Hl Hf Hok Hj Hcid Hcontent.
  unfold run_handleSendMessage.
  rewrite (handleSendMessage_dispatched (render (Some s) st_new) s now st_new
             eq_refl Hb).
  rewrite (handleSendMessage_dispatched (render (Some s) st_known) s now
             st_known eq_refl Hb').
  rewrite !(handleSendMessage_settled_decoded _ _ _ _ _ _ Hl Hf Hok Hj).
  destruct cid as [|c cid]; [congruence|].
  destruct content as [|d content]; [congruence|].
  unfold handleSendMessage_data, expected_format, data_response_content,
    data_conversation_id, data_response, refreshes.
  split;
    cbn -[is_refresh handleSendMessage_call fetchConversations_call];
    [rewrite Hnew | rewrite Hknown];
    cbn -[is_refresh handleSendMessage_call fetchConversations_call].
  - rewrite is_refresh_handleSendMessage_call,
      is_refresh_fetchConversations_call; auto.
  - rewrite N.eqb_refl, strict_eq_refl.
    cbn -[is_refresh handleSendMessage_call fetchConversations_call].
    rewrite is_refresh_handleSendMessage_call; auto.
Qed.

(** *** Claim on a delete that succeeds *)

(** C7.  A delete whose request is answered with a 2xx status: the run
    issues the [DELETE] request and then exactly one request that lists
    the conversations.  From a state where the deleted conversation is
    the current one, the run ends in the state of a new chat: no current
    identifier, no message, empty input.  From a state where it is not,
    the run ends in the state the list refresh alone leads to (with
    [isLoading] false): the current identifier is the one before, and the
    message list is the one before, or the one before followed by the
    diagnostic message of a list refresh that failed. *)
Theorem delete_success :
  forall (s : Session) (cid : JsString) (now : Z) (reply : Reply unit)
         (response : Response unit)
         (now' : Z) (reply' : Reply (list Conversation.t))
         (st_open st_other : State),
    settles reply = Fulfilled response ->
    200 <= status response <= 299 ->
    currentConversationId st_open = Some cid ->
    currentConversationId st_other <> Some cid ->
    (forall st,
        snd (run_handleDeleteConversation (Some s) cid now reply now' reply' st)
        = [handleDeleteConversation_call s cid; fetchConversations_call s]
        /\ refreshes
             (snd (run_handleDeleteConversation (Some s) cid now reply
                                                now' reply' st)) = 1%nat)
    /\ (currentConversationId
          (fst (run_handleDeleteConversation (Some s) cid now reply
                                             now' reply' st_open)) = None
        /\ messages
             (fst (run_handleDeleteConversation (Some s) cid now reply
                                                now' reply' st_open)) = []
        /\ inputText
             (fst (run_handleDeleteConversation (Some s) cid now reply
                                                now' reply' st_open)) = [])
    /\ (fst (run_handleDeleteConversation (Some s) cid now reply
                                          now' reply' st_other)
        = setIsLoading false
            (fst (run_fetchConversations (Some s) now' reply' st_other))
        /\ currentConversationId
             (fst (run_handleDeleteConversation (Some s) cid now reply
                                                now' reply' st_other))
           = currentConversationId st_other
        /\ (messages
              (fst (run_handleDeleteConversation (Some s) cid now reply
                                                 now' reply' st_other))
            = messages st_other
            \/ messages
                 (fst (run_handleDeleteConversation (Some s) cid now reply
                                                    now' reply' st_other))
               = messages st_other ++ [diagnostic now'])).
Proof.
  intros s cid now reply response now' reply' st_open st_other
         Hf Hok Hopen Hother.
  apply ok_spec in Hok.
  unfold run_handleDeleteConversation, handleDeleteConversation,
    handleDeleteConversation_settled, handleDeleteConversation_refreshed,
    handleDeleteConversation_rest, refreshes;
    cbn -[is_refresh handleDeleteConversation_call fetchConversations_call].
  rewrite Hf, Hok;
    cbn -[is_refresh handleDeleteConversation_call fetchConversations_call].
  rewrite is_refresh_handleDeleteConversation_call,
    is_refresh_fetchConversations_call; simpl.
  split; [intros st; split; reflexivity|]; split.
  - assert (E : strict_eq_opt (currentConversationId st_open) (Some cid) = true)
      by now apply strict_eq_opt_spec.
    rewrite E; auto.
  - assert (E : strict_eq_opt (currentConversationId st_other) (Some cid)
                = false).
    { destruct (strict_eq_opt _ _) eqn:E; [|reflexivity].
      now apply strict_eq_opt_spec in E. }
    rewrite E.
    change (setIsLoadingConversations true (setIsLoading true st_other))
      with (setIsLoading true (setIsLoadingConversations true st_other)).
    rewrite fetchConversations_settled_setIsLoading.
    split; [|split].
    + unfold run_fetchConversations; simpl.
      now destruct (fetchConversations_settled _ _ _).
    + simpl.
      apply (fetchConversations_settled_frame now' reply'
               (setIsLoadingConversations true st_other)).
    + simpl.
      unfold fetchConversations_settled, fetchConversations_try.
      cases; auto.
Qed.

(** *** Claims on calls that fail *)

(** The failures read off the reply are the replies the promise chain
    does not take as a success. *)
Lemma send_failed_acknowledged (reply : Reply (option ChatResponse.t)) :
  send_failed reply = negb (send_acknowledged reply).
Proof.
  unfold send_failed, send_acknowledged, race, ok, expected_format,
    data_response_content, data_conversation_id, data_response.
  rewrite Z.leb_antisym.
  destruct (latency reply <? FETCH_TIMEOUT); simpl;
    [|destruct (settles reply); reflexivity].
  destruct (settles reply) as [response|e]; [|reflexivity].
  destruct ((200 <=? status response) && (status response <=? 299));
    [|reflexivity].
  simpl.
  destruct (json response) as [[[cid [[mid content created]|]]|]|]; simpl;
    try reflexivity.
  - destruct (truthy content), (truthy cid); reflexivity.
  - now rewrite orb_true_r.
Qed.

Lemma delete_failed_acknowledged (reply : Reply unit) :
  delete_failed reply = negb (delete_acknowledged reply).
Proof.
  unfold delete_failed, delete_acknowledged, ok.
  destruct (settles reply); reflexivity.
Qed.

(** C2, as amended.  A send that fails leaves the current conversation
    identifier as it was, where failing is: the reply comes at the
    30-second timeout or later, the request is rejected, the status is
    outside 2xx, the body does not decode, or the body is null or lacks (or
    has an empty) [conversation_id], [response] or [response.content].  A
    delete whose request is rejected or answered with a status outside 2xx
    leaves it as it was too.  [loadConversation] is different: with a
    session it makes the requested identifier current before the request
    is issued, so after a load the requested identifier is current
    whatever the network replied. *)
Theorem failed_call_identifier :
  forall (sess : option Session) (st : State) (cid : JsString)
         (now now' : Z)
         (reply_send : Reply (option ChatResponse.t))
         (reply_delete : Reply unit)
         (reply_list : Reply (list Conversation.t))
         (reply_load : Reply (option ConversationData.t)),
    send_failed reply_send = true ->
    delete_failed reply_delete = true ->
    currentConversationId
      (fst (run_handleSendMessage sess now now' reply_send st))
    = currentConversationId st
    /\ currentConversationId
         (fst (run_handleDeleteConversation sess cid now reply_delete
                                            now' reply_list st))
       = currentConversationId st
    /\ currentConversationId
         (fst (run_loadConversation sess cid now reply_load st))
       = match sess with
         | Some _ => Some cid
         | None => currentConversationId st
         end.
Proof.
  intros sess st cid now now' reply_send reply_delete reply_list reply_load
         Hsend Hdelete.
  rewrite send_failed_acknowledged in Hsend.
  apply negb_true_iff in Hsend.
  rewrite delete_failed_acknowledged in Hdelete.
  apply negb_true_iff in Hdelete.
  split; [|split].
  - unfold run_handleSendMessage.
    destruct (handleSendMessage_settled_failed
                (render sess st) now' reply_send
                (setIsLoading true
                   (setInputText []
                      (append (Message.mk (Some (toString now))
                                          (inputText st) user (DateAt now))
                              st))) Hsend) as [m [_ E]].
    unfold handleSendMessage; simpl.
    destruct (strict_eq (trim (inputText st)) []); [reflexivity|].
    destruct sess as [s|]; [|reflexivity].
    cbn -[handleSendMessage_settled]; simpl in E; rewrite E; reflexivity.
  - unfold run_handleDeleteConversation, handleDeleteConversation; simpl.
    destruct sess as [s|]; [|reflexivity].
    unfold delete_acknowledged in Hdelete.
    unfold handleDeleteConversation_settled, handleDeleteConversation_catch.
    destruct (settles reply_delete) as [response|e].
    + rewrite Hdelete; simpl.
      destruct (find_error_delete (messages st)) as [[|]|]; reflexivity.
    + destruct (find_error_delete _) as [[|]|]; reflexivity.
  - destruct sess as [s|]; [|reflexivity].
    unfold run_loadConversation, loadConversation; simpl.
    unfold loadConversation_settled, loadConversation_try,
      loadConversation_catch.
    cases; reflexivity.
Qed.

(** C5, as amended.  A send answered in time with a status outside 2xx:
    the run ends with the user's message still in the list, followed by
    one bot message whose text is the same for every status (it names the
    platform and points to the console; the status goes into the thrown
    error only). *)
Theorem send_non_2xx :
  forall (s : Session) (now now' : Z) (reply : Reply (option ChatResponse.t))
         (response : Response (option ChatResponse.t)) (st : State),
    blank (inputText st) = false ->
    latency reply < FETCH_TIMEOUT ->
    settles reply = Fulfilled response ->
    ~ 200 <= status response <= 299 ->
    messages (fst (run_handleSendMessage (Some s) now now' reply st))
    = messages st
        ++ [Message.mk (Some (toString now)) (inputText st) user (DateAt now);
            Message.mk (Some (toString (now' + 1)))
                       (str "Error sending message on " ++ Platform_OS
                          ++ str ". Check console for details.")
                       bot (DateAt now')].
Proof.
  intros s now now' reply response st Hb Hl Hf Hnok.
  apply ok_false in Hnok.
  unfold run_handleSendMessage.
  rewrite (handleSendMessage_dispatched (render (Some s) st) s now st
             eq_refl Hb).
  unfold handleSendMessage_settled, handleSendMessage_response.
  rewrite (race_in_time _ _ Hl), Hf, Hnok; simpl.
  now rewrite <- app_assoc.
Qed.

(** C6, as amended.  Without a session [fetchConversations] returns at
    its guard: no request is issued and the state, the conversation list
    and the message list included, is the one before; nothing is thrown
    and nothing is reported. *)
Theorem fetchConversations_without_session :
  forall (seen st : State) (now : Z) (reply : Reply (list Conversation.t)),
    fetchConversations (render None seen) st = Done st
    /\ calls_of (fetchConversations (render None seen) st) = []
    /\ run_fetchConversations None now reply st = (st, []).
Proof. intros; repeat split. Qed.

(** ** Further properties of the handlers *)

(** *** [handleNewChat] *)

(** X1.  [handleNewChat] leads to the state of a new chat (no current
    identifier, no message, empty input) and leaves the conversation list
    and the two loading flags alone; pressing it twice is pressing it
    once. *)
Theorem handleNewChat_idempotent :
  forall st : State,
    handleNewChat (handleNewChat st) = handleNewChat st
    /\ handleNewChat st
       = mkState [] [] (isLoading st) (isLoadingConversations st)
                 (conversations st) None.
Proof. intros st; split; reflexivity. Qed.

(** *** [fetchConversations] *)

Lemma map_Conversation_mk (data : list Conversation.t) :
  map (fun conv => Conversation.mk (Conversation.id conv)
                                   (Conversation.title conv)) data
  = data.
Proof.
  induction data as [|[i t] data IH]; simpl; [reflexivity | now rewrite IH].
Qed.

(** X2.  A list request answered in time with a 2xx status and a body that
    decodes: the conversation list becomes the list of the body, whatever
    it was before (and be it empty); the messages are untouched, the
    list-loading flag is down again, and one request was issued. *)
Theorem fetchConversations_replaces_list :
  forall (s : Session) (now : Z) (reply : Reply (list Conversation.t))
         (response : Response (list Conversation.t))
         (data : list Conversation.t) (st : State),
    latency reply < FETCH_TIMEOUT ->
    settles reply = Fulfilled response ->
    200 <= status response <= 299 ->
    json response = Some data ->
    run_fetchConversations (Some s) now reply st
    = (mkState (messages st) (inputText st) (isLoading st) false data
               (currentConversationId st),
       [fetchConversations_call s]).
Proof.
  intros s now reply response data st Hl Hf Hok Hj.
  apply ok_spec in Hok.
  unfold run_fetchConversations, fetchConversations_settled,
    fetchConversations_try; simpl.
  rewrite (race_in_time _ _ Hl), Hf, Hok, Hj; simpl.
  now rewrite map_Conversation_mk.
Qed.

(** X3.  A list request that is not acknowledged (timeout, rejected
    request, status outside 2xx, body that does not decode): the
    conversation list stays as it was, one diagnostic message is appended
    to the messages, and the list-loading flag is down again. *)
Theorem fetchConversations_failure_keeps_list :
  forall (s : Session) (now : Z) (reply : Reply (list Conversation.t))
         (st : State),
    list_acknowledged reply = false ->
    run_fetchConversations (Some s) now reply st
    = (mkState (messages st ++ [diagnostic now]) (inputText st) (isLoading st)
               false (conversations st) (currentConversationId st),
       [fetchConversations_call s]).
Proof.
  intros s now reply st Hnack.
  unfold list_acknowledged in Hnack.
  unfold run_fetchConversations, fetchConversations_settled,
    fetchConversations_try; simpl.
  destruct (race FETCH_TIMEOUT reply) as [response|e]; [|reflexivity].
  destruct (ok response); [|reflexivity].
  destruct (json response); [discriminate | reflexivity].
Qed.

(** *** [loadConversation] *)

(** X4.  A load answered with a status outside 2xx ends with exactly one
    bot message in the list.  Which one depends on the list on display
    when the load was started, which the [catch] block reads through the
    closure: if it was empty, the message naming the status is overwritten
    by the general fetch-error message; if it was not, the message naming
    the status stays. *)
Theorem loadConversation_non_2xx :
  forall (s : Session) (cid : JsString) (now : Z)
         (reply : Reply (option ConversationData.t))
         (response : Response (option ConversationData.t)) (st : State),
    settles reply = Fulfilled response ->
    ~ 200 <= status response <= 299 ->
    messages (fst (run_loadConversation (Some s) cid now reply st))
    = [match messages st with
       | [] =>
           Message.mk
             (Some (str "error-fetch-" ++ toString now))
             (str "An error occurred while fetching conversation. Platform: "
                ++ Platform_OS)
             bot (DateAt now)
       | _ :: _ =>
           Message.mk
             (Some (str "error-" ++ toString now))
             (str "Error loading conversation: " ++ toString (status response)
                ++ str ". Platform: " ++ Platform_OS)
             bot (DateAt now)
       end].
Proof.
  intros s cid now reply response st Hf Hnok.
  apply ok_false in Hnok.
  unfold run_loadConversation, loadConversation_settled, loadConversation_try,
    loadConversation_catch; simpl.
  rewrite Hf, Hnok; simpl.
  destruct (messages st); reflexivity.
Qed.

(** X5.  A load whose request is rejected, or whose 2xx body does not
    decode: if the list on display when the load was started was empty,
    the general fetch-error message is shown; if it was not, the list is
    left empty, with no message at all.  The current identifier is the
    requested one in both cases. *)
Theorem loadConversation_unanswered :
  forall (s : Session) (cid : JsString) (now : Z)
         (reply : Reply (option ConversationData.t)) (st : State),
    load_unanswered reply = true ->
    fst (run_loadConversation (Some s) cid now reply st)
    = mkState
        (match messages st with
         | [] =>
             [Message.mk
                (Some (str "error-fetch-" ++ toString now))
                (str "An error occurred while fetching conversation. Platform: "
                   ++ Platform_OS)
                bot (DateAt now)]
         | _ :: _ => []
         end)
        (inputText st) false (isLoadingConversations st) (conversations st)
        (Some cid).
Proof.
  intros s cid now reply st Hun.
  unfold load_unanswered in Hun.
  unfold run_loadConversation, loadConversation_settled, loadConversation_try,
    loadConversation_catch; simpl.
  destruct (settles reply) as [response|e].
  - apply andb_true_iff in Hun; destruct Hun as [Hok Hj].
    rewrite Hok; simpl.
    destruct (json response); [discriminate|].
    destruct (messages st); reflexivity.
  - destruct (messages st); reflexivity.
Qed.

(** X6.  A load answered with a 2xx status and a body that decodes: the
    list on display is replaced.  With a [messages] array, by one message
    per row, in the order of the rows, a row being the user's exactly when
    its [role] is ['user']; with a null body or no [messages], by the one
    format-error message.  Everything else but [isLoading] and the current
    identifier is as before. *)
Theorem loadConversation_loaded :
  forall (s : Session) (cid : JsString) (now : Z)
         (reply : Reply (option ConversationData.t))
         (response : Response (option ConversationData.t))
         (data : option ConversationData.t) (st : State),
    settles reply = Fulfilled response ->
    200 <= status response <= 299 ->
    json response = Some data ->
    fst (run_loadConversation (Some s) cid now reply st)
    = mkState
        (match data with
         | Some (ConversationData.mk (Some rows)) =>
             map (fun msg =>
                    Message.mk (Some (MessageRow.id msg))
                               (MessageRow.content msg)
                               (if strict_eq (MessageRow.role msg) (str "user")
                                then user else bot)
                               (DateOf (MessageRow.created_at msg)))
                 rows
         | _ =>
             [Message.mk (Some (str "error-format-" ++ toString now))
                         (str "Failed to parse conversation messages.")
                         bot (DateAt now)]
         end)
        (inputText st) false (isLoadingConversations st) (conversations st)
        (Some cid).
Proof.
  intros s cid now reply response data st Hf Hok Hj.
  apply ok_spec in Hok.
  unfold run_loadConversation, loadConversation_settled, loadConversation_try,
    loadConversation_catch; simpl.
  rewrite Hf, Hok, Hj; simpl.
  destruct data as [[[rows|]]|]; reflexivity.
Qed.

(** *** [handleDeleteConversation] *)

(** X7.  A delete answered with a status outside 2xx appends the message
    naming the status, and after it at most one more: the [catch] block
    searches the messages of its closure, which do not hold the message
    just appended, for an id that starts with [error-delete].  If the
    search ends without finding one, the general delete-error message is
    appended too; if it finds one, or throws on a message without an id
    before finding one, the message naming the status is the only one.
    In every case the conversation list, the current identifier and the
    input text are as before, [isLoading] is false and only the [DELETE]
    request was issued. *)
Theorem delete_non_2xx :
  forall (s : Session) (cid : JsString) (now : Z) (reply : Reply unit)
         (response : Response unit)
         (now' : Z) (reply' : Reply (list Conversation.t)) (st : State),
    settles reply = Fulfilled response ->
    ~ 200 <= status response <= 299 ->
    run_handleDeleteConversation (Some s) cid now reply now' reply' st
    = (mkState
         (messages st
            ++ Message.mk
                 (Some (str "error-delete-" ++ toString now))
                 (str "Error deleting conversation: "
                    ++ toString (status response)
                    ++ str ". Please try again.")
                 bot (DateAt now)
            :: match find_error_delete (messages st) with
               | Fulfilled false =>
                   [Message.mk
                      (Some (str "error-delete-fetch-" ++ toString now))
                      (str "An error occurred while deleting the conversation.")
                      bot (DateAt now)]
               | Fulfilled true => []
               | Rejected _ => []
               end)
         (inputText st) false (isLoadingConversations st) (conversations st)
         (currentConversationId st),
       [handleDeleteConversation_call s cid]).
Proof.
  intros s cid now reply response now' reply' st Hf Hnok.
  apply ok_false in Hnok.
  unfold run_handleDeleteConversation, handleDeleteConversation_settled,
    handleDeleteConversation_catch;
    cbn -[handleDeleteConversation_call].
  rewrite Hf, Hnok; cbn -[handleDeleteConversation_call].
  destruct (find_error_delete (messages st)) as [[|]|];
    cbn -[handleDeleteConversation_call];
    unfold setIsLoading, append, setMessages; simpl;
    rewrite <- ?app_assoc; reflexivity.
Qed.

(** X8.  A delete that is not acknowledged, whatever the reason and
    whatever is on display: the conversation list, the current identifier
    and the input text are as before, the [DELETE] request is the only one
    issued (no list refresh), and the messages on display are kept, with
    at most two bot messages after them. *)
Theorem delete_failure_keeps_list :
  forall (s : Session) (cid : JsString) (now : Z) (reply : Reply unit)
         (now' : Z) (reply' : Reply (list Conversation.t)) (st : State),
    delete_acknowledged reply = false ->
    snd (run_handleDeleteConversation (Some s) cid now reply now' reply' st)
    = [handleDeleteConversation_call s cid]
    /\ conversations
         (fst (run_handleDeleteConversation (Some s) cid now reply
                                            now' reply' st))
       = conversations st
    /\ inputText
         (fst (run_handleDeleteConversation (Some s) cid now reply
                                            now' reply' st))
       = inputText st
    /\ exists added,
        messages
          (fst (run_handleDeleteConversation (Some s) cid now reply
                                             now' reply' st))
        = messages st ++ added
        /\ (List.length added <= 2)%nat
        /\ Forall (fun m => Message.sender m = bot) added.
Proof.
  intros s cid now reply now' reply' st Hnack.
  unfold delete_acknowledged in Hnack.
  unfold run_handleDeleteConversation, handleDeleteConversation_settled,
    handleDeleteConversation_catch;
    cbn -[handleDeleteConversation_call].
  destruct (settles reply) as [response|e].
  - rewrite Hnack; cbn -[handleDeleteConversation_call].
    destruct (find_error_delete (messages st)) as [[|]|];
      cbn -[handleDeleteConversation_call]; repeat split;
      try (eexists; split; [reflexivity|]; split;
           [simpl; lia | repeat constructor]).
    exists [Message.mk
              (Some (str "error-delete-" ++ toString now))
              (str "Error deleting conversation: "
                 ++ toString (status response) ++ str ". Please try again.")
              bot (DateAt now);
            Message.mk
              (Some (str "error-delete-fetch-" ++ toString now))
              (str "An error occurred while deleting the conversation.")
              bot (DateAt now)].
    split; [now rewrite <- app_assoc|]; split;
      [simpl; lia | repeat constructor].
  - destruct (find_error_delete (messages st)) as [[|]|];
      cbn -[handleDeleteConversation_call]; repeat split.
    + exists []; split; [now rewrite app_nil_r|]; split;
        [simpl; lia | constructor].
    + eexists; split; [reflexivity|]; split;
        [simpl; lia | repeat constructor].
    + exists []; split; [now rewrite app_nil_r|]; split;
        [simpl; lia | constructor].
Qed.

(** *** [handleSendMessage] *)

(** X9.  The request of a send: a [POST] to the chat endpoint under the
    30-second timeout, whose body carries the input text as typed (not
    trimmed) and carries [conversation_id] exactly when a non-empty
    identifier is current. *)
Theorem send_request :
  forall (s : Session) (seen : State) (now : Z) (st : State),
    blank (inputText seen) = false ->
    calls_of (handleSendMessage (render (Some s) seen) now st)
    = [fetchWithTimeout
         API_ENDPOINT
         {| method := POST;
            headers := [content_type; authorization s];
            body := Some (RequestBody.mk
                            (inputText seen)
                            (match currentConversationId seen with
                             | Some (c :: id) => Some (c :: id)
                             | _ => None
                             end)) |}
         FETCH_TIMEOUT].
Proof.
  intros s seen now st Hb.
  rewrite (handleSendMessage_dispatched (render (Some s) seen) s now st
             eq_refl Hb); simpl.
  unfold handleSendMessage_call.
  destruct (currentConversationId seen) as [[|c id]|]; reflexivity.
Qed.

(** The second [.then] on a body of the expected format appends the bot
    message, whatever it does about the identifier. *)
Lemma handleSendMessage_data_messages (r : Render) now data st :
  expected_format data = true ->
  messages (state_of (handleSendMessage_data r now data st))
  = messages st
      ++ [Message.mk (data_response_id data)
                     (the (data_response_content data))
                     bot
                     (if truthy (data_response_created_at data)
                      then DateOf (the (data_response_created_at data))
                      else DateAt now)].
Proof.
  intros He; unfold handleSendMessage_data, fetchConversations.
  rewrite He; cases; reflexivity.
Qed.

Lemma messages_with_state_setIsLoading (b : bool) (step : Step) :
  messages (state_of (with_state (setIsLoading b) step))
  = messages (state_of step).
Proof. destruct step; reflexivity. Qed.

(** On a body of the expected format the second [.then] starts a list
    refresh exactly when the identifier of its closure is absent or
    empty. *)
Lemma handleSendMessage_data_step (r : Render) (s : Session) now data st :
  session r = Some s ->
  expected_format data = true ->
  exists st',
    messages st'
    = messages st
        ++ [Message.mk (data_response_id data)
                       (the (data_response_content data))
                       bot
                       (if truthy (data_response_created_at data)
                        then DateOf (the (data_response_created_at data))
                        else DateAt now)]
    /\ handleSendMessage_data r now data st
       = if truthy (currentConversationId (rendered r))
         then Done st'
         else Pending st' (fetchConversations_call s).
Proof.
  intros Hs He; unfold handleSendMessage_data, fetchConversations.
  rewrite He, Hs.
  destruct (truthy (currentConversationId (rendered r))); simpl.
  - destruct (negb (strict_eq_opt _ _)); eexists;
      (split; [|reflexivity]); reflexivity.
  - eexists; split; [|reflexivity]; reflexivity.
Qed.

(** What the continuation of a list refresh does to the messages. *)
Lemma fetchConversations_settled_messages now reply st :
  messages (fetchConversations_settled now reply st)
  = messages st
      ++ (if list_acknowledged reply then [] else [diagnostic now]).
Proof.
  unfold fetchConversations_settled, fetchConversations_try, list_acknowledged.
  destruct (race FETCH_TIMEOUT reply) as [response|e]; [|reflexivity].
  destruct (ok response); [|reflexivity].
  destruct (json response); simpl; [now rewrite app_nil_r | reflexivity].
Qed.

(** X10.  A send that passes the guards has added exactly two entries to
    the message list when its promise chain has run, whatever the network
    replied: the user's message, and after it one bot message (the reply,
    or an error message); the messages already on display stay in front,
    in their order.  The list refresh that a successful first send of a
    new conversation starts adds a third entry, its diagnostic message,
    when it fails, and nothing when it succeeds; no other entry is
    added. *)
Theorem send_appends_two :
  forall (s : Session) (now now' : Z) (reply : Reply (option ChatResponse.t))
         (now'' : Z) (reply_list : Reply (list Conversation.t))
         (st : State),
    blank (inputText st) = false ->
    exists m,
      Message.sender m = bot
      /\ messages (fst (run_handleSendMessage (Some s) now now' reply st))
         = messages st
             ++ [Message.mk (Some (toString now)) (inputText st) user
                            (DateAt now);
                 m]
      /\ messages (fst (run_handleSendMessage_refreshed
                          (Some s) now now' reply now'' reply_list st))
         = messages st
             ++ [Message.mk (Some (toString now)) (inputText st) user
                            (DateAt now);
                 m]
             ++ (if negb (send_failed reply)
                    && negb (truthy (currentConversationId st))
                    && negb (list_acknowledged reply_list)
                 then [diagnostic now'']
                 else []).
Proof.
  intros s now now' reply now'' reply_list st Hb.
  unfold run_handleSendMessage, run_handleSendMessage_refreshed.
  rewrite (handleSendMessage_dispatched (render (Some s) st) s now st
             eq_refl Hb).
  rewrite send_failed_acknowledged, negb_involutive.
  cbn [fst rendered render].
  set (st1 := setIsLoading true
                (setInputText []
                   (append (Message.mk (Some (toString now)) (inputText st)
                                       user (DateAt now)) st))).
  assert (M1 : messages st1
               = messages st
                   ++ [Message.mk (Some (toString now)) (inputText st) user
                                  (DateAt now)]) by reflexivity.
  destruct (send_acknowledged reply) eqn:Hack.
  - assert (Hack' := Hack).
    unfold send_acknowledged in Hack'.
    unfold handleSendMessage_settled, handleSendMessage_response.
    destruct (race FETCH_TIMEOUT reply) as [response|e]; [|discriminate].
    apply andb_true_iff in Hack'; destruct Hack' as [Hok Hdata].
    rewrite Hok; cbn [negb].
    destruct (json response) as [data|]; [|discriminate].
    destruct (handleSendMessage_data_step (render (Some s) st) s now' data st1
                eq_refl Hdata) as [st' [M E]].
    rewrite E; cbn [rendered render].
    exists (Message.mk (data_response_id data)
                       (the (data_response_content data))
                       bot
                       (if truthy (data_response_created_at data)
                        then DateOf (the (data_response_created_at data))
                        else DateAt now')).
    split; [reflexivity|].
    destruct (truthy (currentConversationId st)); cbn.
    + rewrite M, M1, <- !app_assoc; split; reflexivity.
    + rewrite fetchConversations_settled_messages; cbn.
      rewrite M, M1, <- !app_assoc.
      destruct (list_acknowledged reply_list); split; reflexivity.
  - destruct (handleSendMessage_settled_failed
                (render (Some s) st) now' reply st1 Hack) as [m [Hm E]].
    exists m; split; [exact Hm|].
    rewrite E; cbn.
    rewrite <- ?app_assoc; split; reflexivity.
Qed.

Ltac setters :=
  unfold setIsLoading, setIsLoadingConversations, setCurrentConversationId,
    append, setMessages, setInputText, setConversations; simpl.

(** X11.  A send that succeeds, from any state: the run ends with the
    messages on display followed by the user's message and by the bot
    message built from the response (its id, its content, its
    [created_at] or else the clock), the input empty, [isLoading] false,
    and the identifier of the response current, whichever identifier was
    current before: none, an empty one, the same one or a different one.
    The conversations are listed again exactly when no non-empty
    identifier was current. *)
Theorem send_success_state :
  forall (s : Session) (now now' : Z) (reply : Reply (option ChatResponse.t))
         (response : Response (option ChatResponse.t))
         (cid content : JsString) (mid created : option JsString)
         (st : State),
    blank (inputText st) = false ->
    latency reply < FETCH_TIMEOUT ->
    settles reply = Fulfilled response ->
    200 <= status response <= 299 ->
    json response
    = Some (Some (ChatResponse.mk
                    (Some cid)
                    (Some (AssistantMessage.mk mid (Some content) created)))) ->
    cid <> [] ->
    content <> [] ->
    fst (run_handleSendMessage (Some s) now now' reply st)
    = mkState
        (messages st
           ++ [Message.mk (Some (toString now)) (inputText st) user (DateAt now);
               Message.mk mid content bot
                          (if truthy created then DateOf (the created)
                           else DateAt now')])
        [] false
        (if truthy (currentConversationId st) then isLoadingConversations st
         else true)
        (conversations st)
        (Some cid)
    /\ refreshes (snd (run_handleSendMessage (Some s) now now' reply st))
       = (if truthy (currentConversationId st) then 0 else 1)%nat.
Proof.
  intros s now now' reply response cid content mid created st
         Hb Hl Hf Hok Hj Hcid Hcontent.
  unfold run_handleSendMessage.
  rewrite (handleSendMessage_dispatched (render (Some s) st) s now st
             eq_refl Hb).
  rewrite (handleSendMessage_settled_decoded _ _ _ _ _ _ Hl Hf Hok Hj).
  destruct cid as [|c cid]; [congruence|].
  destruct content as [|d content]; [congruence|].
  unfold handleSendMessage_data, expected_format, data_response_content,
    data_conversation_id, data_response_id, data_response_created_at,
    data_response, refreshes.
  cbn -[is_refresh handleSendMessage_call fetchConversations_call].
  destruct (currentConversationId st) as [[|c0 old]|] eqn:Hcur;
    cbn -[is_refresh handleSendMessage_call fetchConversations_call];
    rewrite ?is_refresh_handleSendMessage_call,
      ?is_refresh_fetchConversations_call.
  - split; [|reflexivity].
    setters; rewrite ?Hcur, <- app_assoc; reflexivity.
  - destruct (N.eqb c0 c && strict_eq old cid) eqn:E;
      cbn -[is_refresh handleSendMessage_call fetchConversations_call];
      rewrite ?is_refresh_handleSendMessage_call;
      (split; [|reflexivity]);
      setters; rewrite ?Hcur, <- app_assoc; try reflexivity.
    apply andb_true_iff in E; destruct E as [E1 E2].
    apply N.eqb_eq in E1; apply strict_eq_spec in E2; subst; reflexivity.
  - split; [|reflexivity].
    setters; rewrite ?Hcur, <- app_assoc; reflexivity.
Qed.

(** X12.  A reply that comes after a new chat was started.  The user sends
    a message in conversation [cid] and presses "new chat" while the
    request is in flight; the reply then succeeds.  The promise chain
    compares the identifier of the response with the one of its closure,
    finds them equal and writes none: the bot message of conversation
    [cid] is the only message of the new chat, no identifier is current,
    and the conversations are not listed again. *)
Theorem reply_after_new_chat :
  forall (s : Session) (now now' : Z) (reply : Reply (option ChatResponse.t))
         (response : Response (option ChatResponse.t))
         (cid content : JsString) (mid created : option JsString)
         (st : State),
    blank (inputText st) = false ->
    currentConversationId st = Some cid ->
    latency reply < FETCH_TIMEOUT ->
    settles reply = Fulfilled response ->
    200 <= status response <= 299 ->
    json response
    = Some (Some (ChatResponse.mk
                    (Some cid)
                    (Some (AssistantMessage.mk mid (Some content) created)))) ->
    cid <> [] ->
    content <> [] ->
    handleSendMessage_settled
      (render (Some s) st) now' reply
      (handleNewChat (state_of (handleSendMessage (render (Some s) st) now st)))
    = Done (mkState
              [Message.mk mid content bot
                          (if truthy created then DateOf (the created)
                           else DateAt now')]
              [] false (isLoadingConversations st) (conversations st) None).
Proof.
  intros s now now' reply response cid content mid created st
         Hb Hcur Hl Hf Hok Hj Hcid Hcontent.
  rewrite (handleSendMessage_dispatched (render (Some s) st) s now st
             eq_refl Hb).
  rewrite (handleSendMessage_settled_decoded _ _ _ _ _ _ Hl Hf Hok Hj).
  destruct cid as [|c cid]; [congruence|].
  destruct content as [|d content]; [congruence|].
  unfold handleSendMessage_data, expected_format, data_response_content,
    data_conversation_id, data_response_id, data_response_created_at,
    data_response.
  simpl; rewrite Hcur; simpl.
  now rewrite N.eqb_refl, strict_eq_refl.
Qed.

(** *** All handlers *)

Lemma handleSendMessage_settled_calls (r : Render) (s : Session) now reply st :
  session r = Some s ->
  calls_of (handleSendMessage_settled r now reply st) = []
  \/ calls_of (handleSendMessage_settled r now reply st)
     = [fetchConversations_call s].
Proof.
  intros Hs.
  unfold handleSendMessage_settled, handleSendMessage_response,
    handleSendMessage_data, fetchConversations.
  rewrite Hs; cases; auto.
Qed.

(** X13.  Every request issued by a run of the four operations carries the
    header [Authorization: Bearer <token>] of the session, whatever the
    state and the replies. *)
Theorem every_request_is_authorized :
  forall (s : Session) (cid : JsString) (now now' : Z)
         (reply_send : Reply (option ChatResponse.t))
         (reply_load : Reply (option ConversationData.t))
         (reply_delete : Reply unit)
         (reply_list : Reply (list Conversation.t))
         (st : State),
    Forall (fun c => In (authorization s) (headers (options_of c)))
           (snd (run_handleSendMessage (Some s) now now' reply_send st)
              ++ snd (run_loadConversation (Some s) cid now reply_load st)
              ++ snd (run_handleDeleteConversation (Some s) cid now reply_delete
                                                   now' reply_list st)
              ++ snd (run_fetchConversations (Some s) now reply_list st)).
Proof.
  intros s cid now now' reply_send reply_load reply_delete reply_list st.
  assert (A1 : forall b, In (authorization s)
                            (headers (options_of (handleSendMessage_call s b))))
    by (intros b; right; left; reflexivity).
  assert (A2 : In (authorization s)
                  (headers (options_of (fetchConversations_call s))))
    by (left; reflexivity).
  assert (A3 : In (authorization s)
                  (headers (options_of (loadConversation_call s cid))))
    by (left; reflexivity).
  assert (A4 : In (authorization s)
                  (headers (options_of (handleDeleteConversation_call s cid))))
    by (left; reflexivity).
  rewrite !Forall_app; repeat split.
  - unfold run_handleSendMessage.
    destruct (blank (inputText st)) eqn:Hb.
    + unfold handleSendMessage; cbn [rendered render].
      rewrite trim_blank, Hb; constructor.
    + rewrite (handleSendMessage_dispatched (render (Some s) st) s now st
                 eq_refl Hb).
      cbn [snd]; constructor; [apply A1|].
      match goal with
      | |- Forall _ (calls_of (handleSendMessage_settled ?r ?n ?rp ?x)) =>
          destruct (handleSendMessage_settled_calls r s n rp x eq_refl)
            as [E|E]; rewrite E
      end; repeat constructor; exact A2.
  - unfold run_loadConversation, loadConversation;
      cbn -[loadConversation_call].
    repeat constructor; exact A3.
  - unfold run_handleDeleteConversation, handleDeleteConversation,
      handleDeleteConversation_settled, handleDeleteConversation_catch,
      handleDeleteConversation_refreshed, handleDeleteConversation_rest,
      fetchConversations;
      cbn -[handleDeleteConversation_call fetchConversations_call].
    destruct (settles reply_delete) as [response|e].
    + destruct (ok response);
        cbn -[handleDeleteConversation_call fetchConversations_call].
      * repeat constructor; assumption.
      * destruct (find_error_delete (messages st)) as [[|]|];
          repeat constructor; assumption.
    + destruct (find_error_delete (messages st)) as [[|]|];
        repeat constructor; assumption.
  - unfold run_fetchConversations, fetchConversations;
      cbn -[fetchConversations_call].
    repeat constructor; exact A2.
Qed.

(** X14.  Without a session no operation issues a request:
    [loadConversation], [handleDeleteConversation] and the effect on the
    session leave the state as it is, and [handleSendMessage] only appends
    its authentication-error message (or nothing, on a blank text). *)
Theorem no_session_no_request :
  forall (cid : JsString) (now now' : Z)
         (reply_send : Reply (option ChatResponse.t))
         (reply_load : Reply (option ConversationData.t))
         (reply_delete reply_probe : Reply unit)
         (reply_list : Reply (list Conversation.t))
         (st : State),
    run_loadConversation None cid now reply_load st = (st, [])
    /\ run_handleDeleteConversation None cid now reply_delete now' reply_list st
       = (st, [])
    /\ run_sessionEffect None reply_probe reply_probe now now' reply_list st
       = (st, [])
    /\ run_handleSendMessage None now now' reply_send st
       = (if blank (inputText st) then st
          else append (Message.mk
                         (Some (toString now))
                         (str "Authentication error. Please log in again.")
                         bot (DateAt now)) st,
          []).
Proof.
  intros; repeat split.
  unfold run_handleSendMessage, handleSendMessage; simpl.
  rewrite trim_blank; destruct (blank (inputText st)); reflexivity.
Qed.

(** *** The endpoint *)

Lemma or_else_plus_chat (v : option JsString) (fallback : JsString) :
  or_else (plus_chat v) fallback = plus_chat v.
Proof. destruct v as [[|c v]|]; reflexivity. Qed.

(** X15.  The endpoint is the environment variable of the platform
    followed by [/chat], and the literal [undefined/chat] when the variable
    is not set: the string concatenation is never empty, so the two
    fallback URLs of [getApiEndpoint] are never used. *)
Theorem getApiEndpoint_never_falls_back :
  getApiEndpoint
  = match (if strict_eq Platform_OS (str "web")
           then EXPO_PUBLIC_API_BASE_URL_WEB
           else EXPO_PUBLIC_API_BASE_URL_MOBILE) with
    | Some base => base ++ str "/chat"
    | None => str "undefined/chat"
    end.
Proof.
  unfold getApiEndpoint.
  destruct (strict_eq Platform_OS (str "web")); now rewrite or_else_plus_chat.
Qed.

Lemma startsWith_length (s p : JsString) :
  startsWith s p = true -> (List.length p <= List.length s)%nat.
Proof.
  revert s; induction p as [|c p IH]; intros [|d s]; simpl;
    try discriminate; try lia.
  intros H; apply andb_true_iff in H; destruct H as [_ H].
  apply IH in H; lia.
Qed.

Lemma startsWith_app_long (s t p : JsString) :
  (List.length p <= List.length s)%nat ->
  startsWith (s ++ t) p = startsWith s p.
Proof.
  revert s; induction p as [|c p IH]; intros [|d s] H; simpl in *;
    try reflexivity; try lia.
  - destruct t; reflexivity.
  - rewrite IH by lia; reflexivity.
Qed.

Lemma includes_cons (c : N) (s p : JsString) :
  includes (c :: s) p = startsWith (c :: s) p || includes s p.
Proof. reflexivity. Qed.

Lemma includes_length (s p : JsString) :
  includes s p = true -> (List.length p <= List.length s)%nat.
Proof.
  induction s as [|c s IH]; intros H.
  - destruct p; [simpl; lia | discriminate].
  - rewrite includes_cons in H.
    apply orb_true_iff in H; destruct H as [H|H].
    + now apply startsWith_length in H.
    + apply IH in H; simpl; lia.
Qed.

Lemma replace_cons (c : N) (s p r : JsString) :
  replace (c :: s) p r
  = if startsWith (c :: s) p then r ++ skipn (List.length p) (c :: s)
    else c :: replace s p r.
Proof. reflexivity. Qed.

(** The first occurrence lies in [s]: what follows [s] is left alone. *)
Lemma replace_app_found (s t p r : JsString) :
  includes s p = true ->
  replace (s ++ t) p r = replace s p r ++ t.
Proof.
  induction s as [|c s IH]; intros H.
  - simpl in H; rewrite orb_false_r in H.
    destruct p; [|discriminate].
    destruct t; simpl; now rewrite !app_nil_r.
  - pose proof (includes_length _ _ H) as Hlen.
    change ((c :: s) ++ t) with (c :: (s ++ t)).
    rewrite !replace_cons.
    change (c :: (s ++ t)) with ((c :: s) ++ t).
    rewrite (startsWith_app_long (c :: s) t p Hlen).
    rewrite includes_cons in H.
    destruct (startsWith (c :: s) p) eqn:E.
    + rewrite skipn_app.
      replace (List.length p - List.length (c :: s))%nat with 0%nat by lia.
      now rewrite <- app_assoc.
    + simpl in H; rewrite (IH H); reflexivity.
Qed.

(** [/chat] does not occur across the end of a string and a following
    [/chat]: its only [/] is its first code unit. *)
Lemma replace_chat_not_found (base : JsString) :
  includes base (str "/chat") = false ->
  replace (base ++ str "/chat") (str "/chat") [] = base.
Proof.
  induction base as [|c base IH]; intros H; [reflexivity|].
  rewrite includes_cons in H; apply orb_false_iff in H; destruct H as [H1 H2].
  change ((c :: base) ++ str "/chat") with (c :: (base ++ str "/chat")).
  rewrite replace_cons.
  assert (E : startsWith (c :: (base ++ str "/chat")) (str "/chat") = false).
  { destruct base as [|x1 [|x2 [|x3 [|x4 rest]]]];
      try (simpl; rewrite ?andb_false_r; reflexivity).
    change (c :: (x1 :: x2 :: x3 :: x4 :: rest) ++ str "/chat")
      with ((c :: x1 :: x2 :: x3 :: x4 :: rest) ++ str "/chat").
    rewrite startsWith_app_long by (simpl; lia); exact H1. }
  rewrite E, (IH H2); reflexivity.
Qed.

(** X16.  With the variable of the platform set to [base]: the endpoint is
    [base/chat].  If [/chat] does not occur in [base], the base derived
    from the endpoint is [base] again; if it does, the first occurrence
    inside [base] is the one removed, and the derived base still ends
    with [/chat]. *)
Theorem API_BASE_of_variable :
  forall base : JsString,
    (if strict_eq Platform_OS (str "web")
     then EXPO_PUBLIC_API_BASE_URL_WEB
     else EXPO_PUBLIC_API_BASE_URL_MOBILE) = Some base ->
    API_ENDPOINT = base ++ str "/chat"
    /\ API_BASE
       = if includes base (str "/chat")
         then replace base (str "/chat") [] ++ str "/chat"
         else base.
Proof.
  intros base Hbase.
  unfold API_BASE, API_ENDPOINT.
  rewrite getApiEndpoint_never_falls_back, Hbase.
  split; [reflexivity|].
  destruct (includes base (str "/chat")) eqn:E.
  - now apply replace_app_found.
  - now apply replace_chat_not_found.
Qed.

(** *** [testBackendConnection] and the effect on the session *)

(** X17.  [testBackendConnection] answers [true] exactly when there is a
    session with a non-empty token, the connectivity probe is answered
    within five seconds with a 2xx status, and the credential probe is
    answered within five seconds with a 2xx status and a body that
    decodes; every other outcome, rejections included, answers [false].
    The credential probe is issued only after the connectivity probe
    passed, and only with a token. *)
Theorem testBackendConnection_result :
  forall (sess : option Session) (reply reply' : Reply unit),
    (fst (run_testBackendConnection sess reply reply') = true
     <-> exists s response response' authData,
         sess = Some s
         /\ access_token s <> []
         /\ latency reply < 5000
         /\ settles reply = Fulfilled response
         /\ 200 <= status response <= 299
         /\ latency reply' < 5000
         /\ settles reply' = Fulfilled response'
         /\ 200 <= status response' <= 299
         /\ json response' = Some authData)
    /\ snd (run_testBackendConnection sess reply reply')
       = testBackendConnection_test_call
           :: match sess with
              | Some s =>
                  if probe_passed reply && truthy (Some (access_token s))
                  then [testBackendConnection_auth_call s]
                  else []
              | None => []
              end.
Proof.
  intros sess reply reply'.
  unfold run_testBackendConnection, testBackendConnection,
    testBackendConnection_connectivity, testBackendConnection_auth,
    probe_passed, race.
  split.
  - split.
    + destruct (latency reply <? 5000) eqn:Hl; [|discriminate].
      destruct (settles reply) as [response|e] eqn:Hf; [|discriminate].
      destruct (ok response) eqn:Hok; [|discriminate].
      destruct sess as [s|]; [|discriminate].
      destruct (access_token s) as [|c tok] eqn:Htok; [discriminate|].
      cbn [truthy fst].
      destruct (latency reply' <? 5000) eqn:Hl'; [|discriminate].
      destruct (settles reply') as [response'|e'] eqn:Hf'; [|discriminate].
      destruct (ok response') eqn:Hok'; [|discriminate].
      destruct (json response') as [authData|] eqn:Hj; [|discriminate].
      intros _; exists s, response, response', authData.
      rewrite Htok.
      apply Z.ltb_lt in Hl, Hl'; apply ok_spec in Hok, Hok'.
      repeat split; try assumption; try discriminate; try reflexivity;
        try apply Hok; try apply Hok'.
    + intros [s [response [response' [authData
              [-> [Htok [Hl [Hf [Hok [Hl' [Hf' [Hok' Hj]]]]]]]]]]]].
      apply Z.ltb_lt in Hl, Hl'; apply ok_spec in Hok, Hok'.
      rewrite Hl, Hf, Hok.
      destruct (access_token s) as [|c tok]; [congruence|].
      cbn [truthy fst].
      now rewrite Hl', Hf', Hok', Hj.
  - destruct (latency reply <? 5000); [|destruct sess; reflexivity].
    destruct (settles reply) as [response|e]; [|destruct sess; reflexivity].
    destruct (ok response); [|destruct sess; reflexivity].
    destruct sess as [s|]; [|reflexivity].
    destruct (access_token s); reflexivity.
Qed.

(** X18.  The effect run when a session arrives lists the conversations
    only after [testBackendConnection] answered [true], and then does what
    a list refresh does.  When it answered [false], no list request is
    issued and the message list is replaced, not extended, by the one
    connection-error message; the rest of the state is as before. *)
Theorem sessionEffect_gates_the_list :
  forall (s : Session) (reply reply' : Reply unit) (now now' : Z)
         (reply_list : Reply (list Conversation.t)) (st : State),
    run_sessionEffect (Some s) reply reply' now now' reply_list st
    = if fst (run_testBackendConnection (Some s) reply reply')
      then (fst (run_fetchConversations (Some s) now' reply_list st),
            snd (run_testBackendConnection (Some s) reply reply')
              ++ [fetchConversations_call s])
      else (mkState
              [Message.mk
                 (Some (str "connection-error-" ++ toString now))
                 (str "Unable to connect to chat backend. Please check your connection.")
                 bot (DateAt now)]
              (inputText st) (isLoading st) (isLoadingConversations st)
              (conversations st) (currentConversationId st),
            snd (run_testBackendConnection (Some s) reply reply')).
Proof.
  intros s reply reply' now now' reply_list st.
  unfold run_sessionEffect, sessionEffect_connected.
  destruct (fst (run_testBackendConnection (Some s) reply reply'));
    reflexivity.
Qed.

(** *** Requests that do not settle *)

(** The flag in the long run, for a dispatched call.  A send ends with the
    flag down unless the response came in time and its body is never
    delivered: the timer covers the [fetch], not [text()] and [json()].
    A load or a delete ends with the flag down only if its [fetch]
    settles and the body it reads is delivered. *)
Lemma loading_flag_in_the_long_run (s : Session) (cid : JsString)
      (now now' : Z) (typed st : State)
      (fate_send : Fate (option ChatResponse.t))
      (fate_load : Fate (option ConversationData.t))
      (fate_delete : Fate unit)
      (reply_list : Reply (list Conversation.t)) :
  blank (inputText typed) = false ->
  isLoading (fst (eventually_handleSendMessage (Some s) now now' fate_send typed))
  = match fate_send with
    | Stalls reply =>
        match race FETCH_TIMEOUT reply with
        | Fulfilled _ => true
        | Rejected _ => false
        end
    | _ => false
    end
  /\ isLoading (fst (eventually_loadConversation (Some s) cid now fate_load st))
     = match fate_load with
       | Settles _ => false
       | Stalls reply =>
           match settles reply with
           | Fulfilled _ => true
           | Rejected _ => false
           end
       | Hangs => true
       end
  /\ isLoading (fst (eventually_handleDeleteConversation
                       (Some s) cid now fate_delete now' reply_list st))
     = match fate_delete with
       | Settles _ => false
       | Stalls reply =>
           match settles reply with
           | Fulfilled response => negb (ok response)
           | Rejected _ => false
           end
       | Hangs => true
       end.
Proof.
  intros Hb.
  assert (Hsend : forall reply,
             isLoading (fst (run_handleSendMessage (Some s) now now' reply typed))
             = false).
  { intros reply; unfold run_handleSendMessage.
    rewrite (handleSendMessage_dispatched (render (Some s) typed) s now typed
               eq_refl Hb); simpl.
    apply handleSendMessage_settled_frame. }
  assert (Hload : forall reply,
             isLoading (fst (run_loadConversation (Some s) cid now reply st))
             = false).
  { intros reply; unfold run_loadConversation; simpl.
    apply loadConversation_settled_isLoading. }
  assert (Hdelete : forall reply,
             isLoading (fst (run_handleDeleteConversation
                               (Some s) cid now reply now' reply_list st))
             = false).
  { intros reply; unfold run_handleDeleteConversation; simpl.
    pose proof (handleDeleteConversation_settled_isLoading
                  (render (Some s) st) cid now reply (setIsLoading true st)) as H.
    destruct (handleDeleteConversation_settled _ _ _ _ _); simpl; auto. }
  split; [|split].
  - destruct fate_send as [reply|reply|]; simpl.
    + apply Hsend.
    + destruct (race FETCH_TIMEOUT reply); [|apply Hsend].
      now rewrite (handleSendMessage_dispatched (render (Some s) typed) s now
                     typed eq_refl Hb).
    + now rewrite (handleSendMessage_dispatched (render (Some s) typed) s now
                     typed eq_refl Hb).
  - destruct fate_load as [reply|reply|]; simpl.
    + apply Hload.
    + destruct (settles reply); [reflexivity | apply Hload].
    + reflexivity.
  - destruct fate_delete as [reply|reply|]; simpl.
    + apply Hdelete.
    + destruct (settles reply) as [response|e]; [|apply Hdelete].
      destruct (ok response); [apply Hdelete | reflexivity].
    + reflexivity.
Qed.

End ChatBotUI.

(** ** The claims on sample data *)

Lemma blank_text_is_not_sent_witness :
  blank (inputText spaces_new) = true
  /\ handleSendMessage ios None mobile_url
       (render (Some token) spaces_new) 1000 spaces_new
     = Done spaces_new.
Proof.
  split; [reflexivity|].
  apply (blank_text_is_not_sent ios None mobile_url
           (Some token) spaces_new 1000 spaces_new).
  reflexivity.
Defined.

Lemma send_input_text_witness :
  blank (inputText hello_new) = false
  /\ forall now' reply,
      inputText (fst (run_handleSendMessage ios None mobile_url (Some token)
                                            1000 now' reply hello_new))
      = [].
Proof.
  split; [reflexivity|].
  apply (send_input_text ios None mobile_url token hello_new 1000 hello_new).
  reflexivity.
Defined.

Lemma loading_flag_is_reset_witness :
  blank (inputText hello_new) = false
  /\ forall now' reply,
      isLoading (fst (run_handleSendMessage ios None mobile_url (Some token)
                                            1000 now' reply hello_new))
      = false.
Proof.
  split; [reflexivity|].
  apply (loading_flag_is_reset ios None mobile_url token hello_new spaces_new
           c1 1000 hello_in_c1).
  reflexivity.
Defined.

Lemma send_success_identifier_witness :
  (currentConversationId
     (fst (run_handleSendMessage ios None mobile_url (Some token) 1000 1200
                                 (replied 120 200 (Some hi_there)) hello_new))
   = Some c1
   /\ refreshes ios None mobile_url
        (snd (run_handleSendMessage ios None mobile_url (Some token) 1000 1200
                                    (replied 120 200 (Some hi_there)) hello_new))
      = 1%nat)
  /\ (currentConversationId
        (fst (run_handleSendMessage ios None mobile_url (Some token) 1000 1200
                                    (replied 120 200 (Some hi_there)) hello_in_c1))
      = Some c1
      /\ refreshes ios None mobile_url
           (snd (run_handleSendMessage ios None mobile_url (Some token) 1000 1200
                                       (replied 120 200 (Some hi_there))
                                       hello_in_c1))
         = 0%nat).
Proof.
  apply (send_success_identifier ios None mobile_url token 1000 1200
           (replied 120 200 (Some hi_there))
           {| status := 200; text := []; json := Some hi_there |}
           c1 (str "hi there") (Some (str "m1"))
           (Some (str "2024-01-01T00:00:00Z")) hello_new hello_in_c1);
    try reflexivity; try discriminate.
  simpl; lia.
Defined.

Lemma delete_success_witness :
  currentConversationId
    (fst (run_handleDeleteConversation ios None mobile_url (Some token) c1
            1000 (replied 90 204 None) 1100 (replied 70 200 (Some []))
            hello_in_c1))
  = None
  /\ currentConversationId
       (fst (run_handleDeleteConversation ios None mobile_url (Some token) c1
               1000 (replied 90 204 None) 1100 (replied 70 200 (Some []))
               hello_new))
     = currentConversationId hello_new.
Proof.
  pose proof (delete_success ios None mobile_url token c1
                1000 (replied 90 204 None)
                {| status := 204; text := []; json := None |}
                1100 (replied 70 200 (Some [])) hello_in_c1 hello_new
                eq_refl
                ltac:(simpl; lia) eq_refl ltac:(discriminate)) as H.
  split; [apply H | apply H].
Defined.

Lemma failed_call_identifier_witness :
  send_failed (replied 80 500 (@None (option ChatResponse.t))) = true
  /\ delete_failed (replied 80 500 None) = true
  /\ currentConversationId
       (fst (run_handleSendMessage ios None mobile_url (Some token) 1000 1200
               (replied 80 500 None) hello_in_c1))
     = Some c1.
Proof.
  split; [reflexivity|]; split; [reflexivity|].
  apply (failed_call_identifier ios None mobile_url (Some token) hello_in_c1 c1
           1000 1200 (replied 80 500 None) (replied 80 500 None)
           (replied 70 200 (Some [])) (replied 80 500 None));
    reflexivity.
Defined.

Lemma send_non_2xx_witness :
  messages (fst (run_handleSendMessage ios None mobile_url (Some token)
                   1000 1200 (replied 80 500 None) hello_new))
  = [Message.mk (Some (str "1000")) (str "hello") user (DateAt 1000);
     Message.mk (Some (str "1201"))
                (str "Error sending message on ios. Check console for details.")
                bot (DateAt 1200)].
Proof.
  apply (send_non_2xx ios None mobile_url token 1000 1200
           (replied 80 500 None)
           {| status := 500; text := []; json := None |} hello_new);
    try reflexivity.
  simpl; lia.
Defined.

(** C2, the claim as stated fails on [loadConversation]: the request is
    answered with status 500, and the current identifier has moved from
    none to the requested one. *)
Lemma load_failure_moves_identifier :
  ok {| status := 500; text := []; json := @None (option ConversationData.t) |}
  = false
  /\ currentConversationId hello_new = None
  /\ currentConversationId
       (fst (run_loadConversation ios None mobile_url (Some token) c1 1000
               (replied 80 500 None) hello_new))
     = Some c1
  /\ currentConversationId
       (fst (run_loadConversation ios None mobile_url (Some token) c1 1000
               (replied 80 500 None) hello_new))
     <> currentConversationId hello_new.
Proof. repeat split; discriminate. Qed.

(** C5, the claim as stated fails: after a send answered with status 500,
    no message of the list mentions the status, and the list is the one a
    send answered with status 401 ends with. *)
Lemma send_error_message_omits_status :
  forallb (fun m => negb (includes (Message.text m) (toString 500)))
          (messages (fst (run_handleSendMessage ios None mobile_url (Some token)
                            1000 1200 (replied 80 500 None) hello_new)))
  = true
  /\ messages (fst (run_handleSendMessage ios None mobile_url (Some token)
                      1000 1200 (replied 80 500 None) hello_new))
     = messages (fst (run_handleSendMessage ios None mobile_url (Some token)
                        1000 1200 (replied 80 401 None) hello_new)).
Proof. split; reflexivity. Qed.

(** C6, the claim as stated fails: without a session the call returns
    normally (it is [Done], not [Failed]), the conversation list it leaves
    is not empty, and no message reports anything. *)
Lemma fetchConversations_without_session_reports_nothing :
  fetchConversations ios None mobile_url (render None hello_in_c1) hello_in_c1
  = Done hello_in_c1
  /\ conversations
       (state_of (fetchConversations ios None mobile_url
                    (render None hello_in_c1) hello_in_c1))
     <> []
  /\ messages
       (state_of (fetchConversations ios None mobile_url
                    (render None hello_in_c1) hello_in_c1))
     = [].
Proof. repeat split; discriminate. Qed.

(** C3, at a failing input.  [loadConversation] and
    [handleDeleteConversation] issue a bare [fetch]: a reply that takes 45
    seconds is awaited and accepted, the messages are loaded and the delete
    goes on to the list refresh; the same late reply to
    [fetchConversations], which goes through [fetchWithTimeout], is dropped
    for the timeout error. *)
Theorem load_and_delete_ignore_the_timeout :
  loadConversation ios None mobile_url (render (Some token) hello_new) c1
                   hello_new
  = Pending
      (mkState [] (str "hello") true false [] (Some c1))
      (fetch (str "http://172.20.10.9:8000/api/v1/conversations/c1/messages")
             {| method := GET;
                headers := [(str "Authorization", str "Bearer token");
                            (str "Content-Type", str "application/json")];
                body := None |})
  /\ messages
       (fst (run_loadConversation ios None mobile_url (Some token) c1 1000
               (replied 45000 200
                  (Some (Some (ConversationData.mk (Some [stored_hello])))))
               hello_new))
     = [Message.mk (Some (str "u1")) (str "hello") user
                   (DateOf (str "2024-01-01T00:00:00Z"))]
  /\ snd (run_handleDeleteConversation ios None mobile_url (Some token) c1
            1000 (replied 45000 204 None) 1100 (replied 70 200 (Some []))
            hello_in_c1)
     = [fetch (str "http://172.20.10.9:8000/api/v1/conversations/c1")
              {| method := DELETE;
                 headers := [(str "Authorization", str "Bearer token")];
                 body := None |};
        fetchConversations_call ios None mobile_url token]
  /\ await (fetchConversations_call ios None mobile_url token)
           (replied 45000 200 (Some [first_chat]))
     = Rejected (Error (str "Network request timed out"))
  /\ conversations
       (fst (run_fetchConversations ios None mobile_url (Some token) 1000
               (replied 45000 200 (Some [first_chat])) hello_new))
     = [].
Proof. repeat split. Qed.

(** C4, at a failing input.  A 2xx reply whose bot response has a content
    but no [id]: the bot message is appended as on success, without an id,
    and no error message is; a later [handleDeleteConversation] that fails
    then throws in its [catch] block, on [m.id.startsWith]. *)
Theorem bot_response_without_id_is_accepted :
  messages (fst (run_handleSendMessage ios None mobile_url (Some token)
                   1000 1200 (replied 120 200 (Some hi_there_without_id))
                   hello_new))
  = [Message.mk (Some (str "1000")) (str "hello") user (DateAt 1000);
     Message.mk None (str "hi there") bot (DateAt 1200)]
  /\ currentConversationId
       (fst (run_handleSendMessage ios None mobile_url (Some token)
               1000 1200 (replied 120 200 (Some hi_there_without_id))
               hello_new))
     = Some c1
  /\ find_error_delete
       (messages (fst (run_handleSendMessage ios None mobile_url (Some token)
                         1000 1200 (replied 120 200 (Some hi_there_without_id))
                         hello_new)))
     = Rejected TypeError.
Proof. repeat split. Qed.

(** ** The further properties on sample data *)

Lemma fetchConversations_replaces_list_witness :
  conversations
    (fst (run_fetchConversations ios None mobile_url (Some token) 1000
            (replied 70 200 (Some [first_chat])) hello_new))
  = [first_chat].
Proof.
  rewrite (fetchConversations_replaces_list ios None mobile_url token 1000
             (replied 70 200 (Some [first_chat]))
             {| status := 200; text := []; json := Some [first_chat] |}
             [first_chat] hello_new
             eq_refl eq_refl ltac:(simpl; lia) eq_refl).
  reflexivity.
Defined.

Lemma fetchConversations_failure_keeps_list_witness :
  list_acknowledged (replied 70 401 None) = false
  /\ conversations
       (fst (run_fetchConversations ios None mobile_url (Some token) 1000
               (replied 70 401 None) hello_in_c1))
     = [first_chat].
Proof.
  split; [reflexivity|].
  rewrite (fetchConversations_failure_keeps_list ios None mobile_url token 1000
             (replied 70 401 None) hello_in_c1 eq_refl).
  reflexivity.
Defined.

Lemma loadConversation_non_2xx_witness :
  List.length
    (messages (fst (run_loadConversation ios None mobile_url (Some token) c1
                      1000 (replied 80 404 None) chatting)))
  = 1%nat.
Proof.
  rewrite (loadConversation_non_2xx ios None mobile_url token c1 1000
             (replied 80 404 None)
             {| status := 404; text := []; json := None |} chatting
             eq_refl ltac:(simpl; lia)).
  reflexivity.
Defined.

Lemma loadConversation_unanswered_witness :
  load_unanswered (unreachable 80) = true
  /\ messages (fst (run_loadConversation ios None mobile_url (Some token) c1
                      1000 (unreachable 80) chatting))
     = [].
Proof.
  split; [reflexivity|].
  rewrite (loadConversation_unanswered ios None mobile_url token c1 1000
             (unreachable 80) chatting eq_refl).
  reflexivity.
Defined.

Lemma loadConversation_loaded_witness :
  messages
    (fst (run_loadConversation ios None mobile_url (Some token) c1 1000
            (replied 80 200
               (Some (Some (ConversationData.mk (Some [stored_hello])))))
            chatting))
  = [Message.mk (Some (str "u1")) (str "hello") user
                (DateOf (str "2024-01-01T00:00:00Z"))].
Proof.
  rewrite (loadConversation_loaded ios None mobile_url token c1 1000
             (replied 80 200
                (Some (Some (ConversationData.mk (Some [stored_hello])))))
             {| status := 200; text := [];
                json := Some (Some (ConversationData.mk (Some [stored_hello]))) |}
             (Some (ConversationData.mk (Some [stored_hello]))) chatting
             eq_refl ltac:(simpl; lia) eq_refl).
  reflexivity.
Defined.

Lemma delete_non_2xx_witness :
  List.length
    (messages
       (fst (run_handleDeleteConversation ios None mobile_url (Some token) c1
               1000 (replied 80 500 None) 1100 (replied 70 200 (Some []))
               chatting)))
  = 3%nat.
Proof.
  rewrite (delete_non_2xx ios None mobile_url token c1 1000
             (replied 80 500 None)
             {| status := 500; text := []; json := None |}
             1100 (replied 70 200 (Some [])) chatting
             eq_refl ltac:(simpl; lia)).
  reflexivity.
Defined.

Lemma delete_failure_keeps_list_witness :
  delete_acknowledged (unreachable 80) = false
  /\ conversations
       (fst (run_handleDeleteConversation ios None mobile_url (Some token) c1
               1000 (unreachable 80) 1100 (replied 70 200 (Some []))
               chatting))
     = [first_chat].
Proof.
  split; [reflexivity|].
  apply (delete_failure_keeps_list ios None mobile_url token c1 1000
           (unreachable 80) 1100 (replied 70 200 (Some [])) chatting).
  reflexivity.
Defined.

Lemma send_request_witness :
  blank (inputText hello_in_c1) = false
  /\ calls_of (handleSendMessage ios None mobile_url
                 (render (Some token) hello_in_c1) 1000 hello_in_c1)
     = [fetchWithTimeout
          (str "http://172.20.10.9:8000/api/v1/chat")
          {| method := POST;
             headers := [(str "Content-Type", str "application/json");
                         (str "Authorization", str "Bearer token")];
             body := Some (RequestBody.mk (str "hello") (Some c1)) |}
          30000].
Proof.
  split; [reflexivity|].
  rewrite (send_request ios None mobile_url token hello_in_c1 1000 hello_in_c1
             eq_refl).
  reflexivity.
Defined.

Lemma send_appends_two_witness :
  exists m,
    Message.sender m = bot
    /\ messages (fst (run_handleSendMessage ios None mobile_url (Some token)
                        1000 1200 (replied 120 200 (Some hi_there)) hello_new))
       = [Message.mk (Some (toString 1000)) (str "hello") user (DateAt 1000);
          m]
    /\ messages (fst (run_handleSendMessage_refreshed
                        ios None mobile_url (Some token)
                        1000 1200 (replied 120 200 (Some hi_there))
                        1300 (replied 70 500 None) hello_new))
       = [Message.mk (Some (toString 1000)) (str "hello") user (DateAt 1000);
          m;
          diagnostic ios 1300].
Proof.
  apply (send_appends_two ios None mobile_url token 1000 1200
           (replied 120 200 (Some hi_there)) 1300 (replied 70 500 None)
           hello_new).
  reflexivity.
Defined.

Lemma send_success_state_witness :
  currentConversationId
    (fst (run_handleSendMessage ios None mobile_url (Some token) 1000 1200
            (replied 120 200 (Some hi_there)) chatting_hello))
  = Some c1.
Proof.
  rewrite (proj1
             (send_success_state ios None mobile_url token 1000 1200
                (replied 120 200 (Some hi_there))
                {| status := 200; text := []; json := Some hi_there |}
                c1 (str "hi there") (Some (str "m1"))
                (Some (str "2024-01-01T00:00:00Z")) chatting_hello
                eq_refl eq_refl eq_refl ltac:(simpl; lia) eq_refl
                ltac:(discriminate) ltac:(discriminate))).
  reflexivity.
Defined.

Lemma reply_after_new_chat_witness :
  currentConversationId
    (state_of
       (handleSendMessage_settled ios None mobile_url
          (render (Some token) hello_in_c1) 1200
          (replied 120 200 (Some hi_there))
          (handleNewChat
             (state_of (handleSendMessage ios None mobile_url
                          (render (Some token) hello_in_c1) 1000
                          hello_in_c1)))))
  = None.
Proof.
  rewrite (reply_after_new_chat ios None mobile_url token 1000 1200
             (replied 120 200 (Some hi_there))
             {| status := 200; text := []; json := Some hi_there |}
             c1 (str "hi there") (Some (str "m1"))
             (Some (str "2024-01-01T00:00:00Z")) hello_in_c1
             eq_refl eq_refl eq_refl eq_refl ltac:(simpl; lia) eq_refl
             ltac:(discriminate) ltac:(discriminate)).
  reflexivity.
Defined.

Lemma API_BASE_of_variable_witness :
  API_BASE ios None mobile_url = str "http://172.20.10.9:8000/api/v1".
Proof.
  rewrite (proj2 (API_BASE_of_variable ios None mobile_url
                    (str "http://172.20.10.9:8000/api/v1") eq_refl)).
  reflexivity.
Defined.

(** C9, the claim as stated fails.  A send whose response comes in time
    (status 200) and whose body is never delivered: [json()] never
    settles, [.finally] never runs, and the component stays as the
    synchronous part left it, with [isLoading] true; no timer covers the
    reading of a body.  A load and a delete whose [fetch] never settles
    stay with [isLoading] true as well; for a send the timer ends such a
    request and the flag goes down. *)
Lemma loading_flag_stays_up :
  eventually_handleSendMessage ios None mobile_url (Some token) 1000 1200
    (Stalls (replied 120 200 (Some hi_there))) hello_new
  = (mkState [Message.mk (Some (str "1000")) (str "hello") user (DateAt 1000)]
             [] true false [] None,
     [handleSendMessage_call ios None mobile_url token
        (RequestBody.mk (str "hello") None)])
  /\ isLoading
       (fst (eventually_loadConversation ios None mobile_url (Some token) c1
               1000 Hangs hello_new))
     = true
  /\ isLoading
       (fst (eventually_handleDeleteConversation ios None mobile_url
               (Some token) c1 1000 Hangs 1100 (replied 70 200 (Some []))
               hello_in_c1))
     = true
  /\ isLoading
       (fst (eventually_handleSendMessage ios None mobile_url (Some token)
               1000 1200 Hangs hello_new))
     = false.
Proof. repeat split. Qed.

